(** * The GPT chat-completions client of LLMAI-writer ([models/gpt_model.py])

    A shallow embedding of [GPTModel.__init__], [GPTModel.generate] and
    [GPTModel.generate_stream], together with the Python and aiohttp
    operations they rely on, and the properties of the client's streaming
    and error behaviour.

    Conventions.
    - Python [bytes] are lists of integers in [0, 255]; Python [str] are
      lists of Unicode code points.
    - A Python computation that may raise is a value of [pyres]; an
      asynchronous generator is the list of the objects it yields together
      with the way it ends.
    - The network ([session.post]) and [json.loads] are parameters of the
      development: the theorems hold for every behaviour of the two. *)

From Stdlib Require Import ZArith List Bool String Ascii Lia.
From Stdlib Require Import DecimalString DecimalZ SpecFloat.
Import ListNotations.
Local Open Scope Z_scope.

(* ================================================================= *)
(** * Python values and the operations the client uses *)
(* ================================================================= *)

Module Py.

(** [bytes]: one integer in [0, 255] per byte. *)
Definition bytes := list Z.

(** [str]: one integer per Unicode code point. *)
Definition str := list Z.

(** The code points of an ASCII literal. *)
Definition lit (s : string) : str :=
  map (fun a => Z.of_N (N_of_ascii a)) (list_ascii_of_string s).

(** The objects [json.loads] and [response.json()] produce. A [dict] is
    kept as its items in insertion order; the first item with a given key
    is the binding of that key. *)
#[warnings="-register-all"]
Inductive pyobj : Type :=
| PyNone
| PyBool (b : bool)
| PyInt (z : Z)
| PyFloat (f : spec_float)
| PyStr (s : str)
| PyList (l : list pyobj)
| PyDict (items : list (str * pyobj)).

(** The exception classes that occur in the client. *)
Inductive exn : Type :=
| ValueError (msg : str)
| Exception (msg : str)
| KeyError (key : pyobj)
| IndexError
| TypeError
| AttributeError
| JSONDecodeError
| UnicodeDecodeError
| ClientConnectionError (detail : str)  (* aiohttp: the exchange failed *)
| TimeoutError                         (* asyncio: the exchange timed out *)
| ContentTypeError (detail : str).     (* aiohttp: the body is not JSON *)

(** The outcome of evaluating a Python expression or call. *)
Inductive pyres (A : Type) : Type :=
| Ok (a : A)
| Raise (e : exn).
Arguments Ok {A} a.
Arguments Raise {A} e.

Definition bind {A B} (m : pyres A) (k : A -> pyres B) : pyres B :=
  match m with
  | Ok a => k a
  | Raise e => Raise e
  end.

(** ** Strings *)

Fixpoint str_eqb (a b : str) : bool :=
  match a, b with
  | [], [] => true
  | x :: a', y :: b' => (x =? y) && str_eqb a' b'
  | _, _ => false
  end.

(** [s.startswith(p)] *)
Fixpoint startswith (s p : str) : bool :=
  match p, s with
  | [], _ => true
  | y :: p', x :: s' => (x =? y) && startswith s' p'
  | _ :: _, [] => false
  end.

(** [str.isspace] on one code point, as [str.strip()] uses it. *)
Definition isspace (c : Z) : bool :=
  ((0x09 <=? c) && (c <=? 0x0D)) || ((0x1C <=? c) && (c <=? 0x20))
  || (c =? 0x85) || (c =? 0xA0) || (c =? 0x1680)
  || ((0x2000 <=? c) && (c <=? 0x200A))
  || (c =? 0x2028) || (c =? 0x2029) || (c =? 0x202F) || (c =? 0x205F)
  || (c =? 0x3000).

Fixpoint lstrip (s : str) : str :=
  match s with
  | [] => []
  | c :: s' => if isspace c then lstrip s' else s
  end.

Definition rstrip (s : str) : str := rev (lstrip (rev s)).

(** [s.strip()] *)
Definition strip (s : str) : str := rstrip (lstrip s).

(** ** [bytes.decode('utf-8')] (strict) *)

Definition between (lo hi b : Z) : bool := (lo <=? b) && (b <=? hi).

Definition cont (b : Z) : bool := between 0x80 0xBF b.

Fixpoint utf8_points (bs : bytes) : option str :=
  match bs with
  | [] => Some []
  | b0 :: r0 =>
    if between 0x00 0x7F b0 then
      option_map (cons b0) (utf8_points r0)
    else if between 0xC2 0xDF b0 then
      match r0 with
      | b1 :: r1 =>
        if cont b1
        then option_map (cons ((b0 - 0xC0) * 64 + (b1 - 0x80)))
                        (utf8_points r1)
        else None
      | _ => None
      end
    else if between 0xE0 0xEF b0 then
      match r0 with
      | b1 :: b2 :: r2 =>
        if between (if b0 =? 0xE0 then 0xA0 else 0x80)
                   (if b0 =? 0xED then 0x9F else 0xBF) b1 && cont b2
        then option_map
               (cons ((b0 - 0xE0) * 4096 + (b1 - 0x80) * 64 + (b2 - 0x80)))
               (utf8_points r2)
        else None
      | _ => None
      end
    else if between 0xF0 0xF4 b0 then
      match r0 with
      | b1 :: b2 :: b3 :: r3 =>
        if between (if b0 =? 0xF0 then 0x90 else 0x80)
                   (if b0 =? 0xF4 then 0x8F else 0xBF) b1
           && cont b2 && cont b3
        then option_map
               (cons ((b0 - 0xF0) * 262144 + (b1 - 0x80) * 4096
                      + (b2 - 0x80) * 64 + (b3 - 0x80)))
               (utf8_points r3)
        else None
      | _ => None
      end
    else None
  end.

Definition decode_utf8 (bs : bytes) : pyres str :=
  match utf8_points bs with
  | Some s => Ok s
  | None => Raise UnicodeDecodeError
  end.

(** ** [str(n)] for an [int] *)

Definition str_of_int (n : Z) : str :=
  lit (NilEmpty.string_of_int (Z.to_int n)).

(** ** Truth value, as tested by [if x:] and [not x] *)

Definition float_is_zero (f : spec_float) : bool :=
  match f with
  | S754_zero _ => true
  | _ => false
  end.

Definition is_nil {A} (l : list A) : bool :=
  match l with
  | [] => true
  | _ :: _ => false
  end.

Definition truthy (v : pyobj) : bool :=
  match v with
  | PyNone => false
  | PyBool b => b
  | PyInt z => negb (z =? 0)
  | PyFloat f => negb (float_is_zero f)
  | PyStr s => negb (is_nil s)
  | PyList l => negb (is_nil l)
  | PyDict items => negb (is_nil items)
  end.

(** Truth value of an [Optional[str]]. *)
Definition truthy_opt (v : option str) : bool :=
  match v with
  | None => false
  | Some s => negb (is_nil s)
  end.

(** ** Dictionaries, subscripts and [dict.get] *)

Fixpoint lookup (k : str) (items : list (str * pyobj)) : option pyobj :=
  match items with
  | [] => None
  | (k', v) :: items' => if str_eqb k k' then Some v else lookup k items'
  end.

(** [v.get(k, default)]: only a [dict] has the attribute [get]. *)
Definition get (v : pyobj) (k : str) (default : pyobj) : pyres pyobj :=
  match v with
  | PyDict items =>
    match lookup k items with
    | Some x => Ok x
    | None => Ok default
    end
  | _ => Raise AttributeError
  end.

(** [v[k]] for a [str] key [k]. *)
Definition getitem_key (v : pyobj) (k : str) : pyres pyobj :=
  match v with
  | PyDict items =>
    match lookup k items with
    | Some x => Ok x
    | None => Raise (KeyError (PyStr k))
    end
  | _ => Raise TypeError
  end.

(** The position in a sequence of length [len] that the index [i]
    denotes, negative indices counting from the end. *)
Definition position (len : nat) (i : Z) : option nat :=
  if (0 <=? i) && (i <? Z.of_nat len) then Some (Z.to_nat i)
  else if (- Z.of_nat len <=? i) && (i <? 0)
       then Some (Z.to_nat (Z.of_nat len + i))
       else None.

(** [v[i]] for an [int] index [i]. The keys of a [dict] decoded from JSON
    are strings, so an [int] is never one of them. *)
Definition getitem_index (v : pyobj) (i : Z) : pyres pyobj :=
  match v with
  | PyList l =>
    match position (List.length l) i with
    | Some n =>
      match nth_error l n with
      | Some x => Ok x
      | None => Raise IndexError
      end
    | None => Raise IndexError
    end
  | PyStr s =>
    match position (List.length s) i with
    | Some n =>
      match nth_error s n with
      | Some c => Ok (PyStr [c])
      | None => Raise IndexError
      end
    | None => Raise IndexError
    end
  | PyDict _ => Raise (KeyError (PyInt i))
  | _ => Raise TypeError
  end.

End Py.

Import Py.

Declare Scope py_scope.
Delimit Scope py_scope with py.
Notation "x <- m ;; k" := (bind m (fun x => k))
  (at level 61, m at next level, right associativity) : py_scope.
Local Open Scope py_scope.

(* ================================================================= *)
(** * A decoder for JSON text

    [json.loads] is a parameter of the client below. [JsonText.loads] is
    an executable decoder for the JSON documents used in the examples:
    objects, arrays, strings with the single-character escapes, integers
    and the three literals. Numbers with a fraction or an exponent and
    escapes by code point are outside what it covers and are rejected. *)
(* ================================================================= *)

Module JsonText.

Definition is_ws (c : Z) : bool :=
  (c =? 32) || (c =? 9) || (c =? 10) || (c =? 13).

Fixpoint skip_ws (s : str) : str :=
  match s with
  | [] => []
  | c :: s' => if is_ws c then skip_ws s' else s
  end.

(** The character that a reverse solidus followed by [e] stands for. *)
Definition unescape (e : Z) : option Z :=
  if e =? 34 then Some 34          (* quotation mark *)
  else if e =? 92 then Some 92     (* reverse solidus *)
  else if e =? 47 then Some 47     (* solidus *)
  else if e =? 98 then Some 8      (* b: backspace *)
  else if e =? 102 then Some 12    (* f: form feed *)
  else if e =? 110 then Some 10    (* n: line feed *)
  else if e =? 114 then Some 13    (* r: carriage return *)
  else if e =? 116 then Some 9     (* t: tab *)
  else None.

Definition push (c : Z) (r : option (str * str)) : option (str * str) :=
  match r with
  | Some (a, rest) => Some (c :: a, rest)
  | None => None
  end.

(** The body of a string, after its opening quote: the decoded characters
    and the text after the closing quote. *)
Fixpoint scan_string (s : str) : option (str * str) :=
  match s with
  | [] => None
  | c :: t =>
    if c =? 34 then Some ([], t)
    else if c =? 92 then
      match t with
      | e :: t' =>
        match unescape e with
        | Some x => push x (scan_string t')
        | None => None
        end
      | [] => None
      end
    else if c <? 32 then None
    else push c (scan_string t)
  end.

Definition is_digit (c : Z) : bool := (48 <=? c) && (c <=? 57).

Fixpoint scan_digits (acc : Z) (s : str) : Z * str :=
  match s with
  | c :: t => if is_digit c then scan_digits (acc * 10 + (c - 48)) t
              else (acc, s)
  | [] => (acc, [])
  end.

(** An integer: an optional minus sign, then [0] or a digit sequence
    without a leading zero; a fraction or an exponent after it is not
    covered. *)
Definition scan_int (s : str) : option (pyobj * str) :=
  let (neg, body) :=
    match s with
    | c :: t => if c =? 45 then (true, t) else (false, s)
    | [] => (false, s)
    end in
  match body with
  | d :: t =>
    if is_digit d then
      let (n, rest) := if d =? 48 then (0, t) else scan_digits 0 body in
      match rest with
      | c :: _ =>
        if (c =? 46) || (c =? 101) || (c =? 69) then None
        else Some (PyInt (if neg then - n else n), rest)
      | [] => Some (PyInt (if neg then - n else n), rest)
      end
    else None
  | [] => None
  end.

(** [d[k] = v] on the items of a [dict]. *)
Fixpoint set_item (k : str) (v : pyobj) (items : list (str * pyobj))
  : list (str * pyobj) :=
  match items with
  | [] => [(k, v)]
  | (k', v') :: items' =>
    if str_eqb k k' then (k', v) :: items'
    else (k', v') :: set_item k v items'
  end.

Definition lit_true : str := Eval cbv in lit "true".
Definition lit_false : str := Eval cbv in lit "false".
Definition lit_null : str := Eval cbv in lit "null".

Fixpoint parse_value (fuel : nat) (s : str) : option (pyobj * str) :=
  match fuel with
  | O => None
  | S n =>
    match skip_ws s with
    | [] => None
    | c :: t =>
      if c =? 123 then
        match skip_ws t with
        | c' :: r => if c' =? 125 then Some (PyDict [], r)
                     else parse_members n (c' :: r) []
        | [] => None
        end
      else if c =? 91 then
        match skip_ws t with
        | c' :: r => if c' =? 93 then Some (PyList [], r)
                     else parse_elements n (c' :: r) []
        | [] => None
        end
      else if c =? 34 then
        match scan_string t with
        | Some (a, r) => Some (PyStr a, r)
        | None => None
        end
      else if startswith (c :: t) lit_true
           then Some (PyBool true, skipn 4 (c :: t))
      else if startswith (c :: t) lit_false
           then Some (PyBool false, skipn 5 (c :: t))
      else if startswith (c :: t) lit_null
           then Some (PyNone, skipn 4 (c :: t))
      else scan_int (c :: t)
    end
  end

with parse_elements (fuel : nat) (s : str) (acc : list pyobj)
  : option (pyobj * str) :=
  match fuel with
  | O => None
  | S n =>
    match parse_value n s with
    | Some (v, r) =>
      match skip_ws r with
      | c :: r' =>
        if c =? 44 then parse_elements n r' (acc ++ [v])
        else if c =? 93 then Some (PyList (acc ++ [v]), r')
        else None
      | [] => None
      end
    | None => None
    end
  end

with parse_members (fuel : nat) (s : str) (acc : list (str * pyobj))
  : option (pyobj * str) :=
  match fuel with
  | O => None
  | S n =>
    match skip_ws s with
    | q :: t =>
      if q =? 34 then
        match scan_string t with
        | Some (k, r) =>
          match skip_ws r with
          | colon :: r1 =>
            if colon =? 58 then
              match parse_value n r1 with
              | Some (v, r2) =>
                match skip_ws r2 with
                | c :: r3 =>
                  if c =? 44 then parse_members n r3 (set_item k v acc)
                  else if c =? 125
                       then Some (PyDict (set_item k v acc), r3)
                       else None
                | [] => None
                end
              | None => None
              end
            else None
          | [] => None
          end
        | None => None
        end
      else None
    | [] => None
    end
  end.

(** [json.loads(s)] on the documents covered: the decoded object, or
    [JSONDecodeError] when [s] is not one document. *)
Definition loads (s : str) : pyres pyobj :=
  match parse_value (2 * List.length s + 2) s with
  | Some (v, r) =>
    if is_nil (skip_ws r) then Ok v else Raise JSONDecodeError
  | None => Raise JSONDecodeError
  end.

(** Writing JSON text in examples: an apostrophe stands for the
    quotation mark. *)
Definition text (s : string) : str :=
  map (fun c => if c =? 39 then 34 else c) (lit s).

End JsonText.

(* ================================================================= *)
(** * The aiohttp objects the client touches *)
(* ================================================================= *)

Module Aiohttp.

(** The arguments of [session.post(url, headers=, json=, proxy=)]. *)
Record Request : Type := {
  post_url : str;
  post_headers : list (str * str);
  post_json : pyobj;
  post_proxy : pyobj
}.

(** A response: its status, what awaiting [response.text()] and
    [response.json()] evaluates to, and the chunks of bytes in which the
    body arrives on [response.content]. *)
Record ClientResponse : Type := {
  status : Z;
  text : pyres str;
  json : pyres pyobj;
  content : list bytes
}.

(** ** Iterating over [response.content]

    [async for line in response.content] reads the body line by line: the
    reader keeps the bytes received after the last line feed, and every
    chunk that arrives completes zero or more lines. A line ends with its
    line feed (byte 10); at the end of the body the bytes still pending,
    if any, are the last line. The reader's bound on the length of a line
    is not part of this model. *)

(** The lines a chunk completes, given the bytes pending before it, and
    the bytes pending after it. *)
Fixpoint feed_data (pending chunk : bytes) : list bytes * bytes :=
  match chunk with
  | [] => ([], pending)
  | b :: chunk' =>
    if b =? 10
    then let (ls, p) := feed_data [] chunk' in ((pending ++ [b]) :: ls, p)
    else feed_data (pending ++ [b]) chunk'
  end.

Fixpoint readlines (pending : bytes) (chunks : list bytes) : list bytes :=
  match chunks with
  | [] => if is_nil pending then [] else [pending]
  | chunk :: chunks' =>
    let (ls, p) := feed_data pending chunk in ls ++ readlines p chunks'
  end.

Definition iter_lines (chunks : list bytes) : list bytes :=
  readlines [] chunks.

End Aiohttp.

Import Aiohttp.

(* ================================================================= *)
(** * The client: [class GPTModel(AIModel)] *)
(* ================================================================= *)

Module Client.

(** The configuration manager, as far as the client reads it. *)
Record ConfigManager : Type := {
  get_api_key : str -> option str;
  get_model_name : str -> option str;
  proxy_settings : pyobj
}.

(** The attributes of a [GPTModel] instance. *)
Record GPTModel : Type := {
  api_key : str;
  model_name : str;
  api_url : str;
  proxy : pyobj
}.

(** The [callback] argument of [generate] and [generate_stream]: [None] or
    a callable. *)
Definition Callback : Type := option (pyobj -> pyres pyobj).

(** How an asynchronous generator ends. *)
Inductive ending : Type :=
| StopAsyncIteration
| Raised (e : exn).

(** The string literals of the source. *)
Definition provider_gpt : str := Eval cbv in lit "gpt".
Definition openai_url : str :=
  Eval cbv in lit "https://api.openai.com/v1/chat/completions".
Definition default_model : str := Eval cbv in lit "gpt-4-turbo".
Definition key_not_configured : str :=
  Eval cbv in lit "OpenAI API" ++ [0x5BC6; 0x94A5; 0x672A; 0x914D; 0x7F6E].
Definition api_error : str :=
  Eval cbv in lit "OpenAI API" ++ [0x9519; 0x8BEF] ++ lit ": ".
Definition dash : str := Eval cbv in lit " - ".
Definition bearer : str := Eval cbv in lit "Bearer ".
Definition k_content_type : str := Eval cbv in lit "Content-Type".
Definition application_json : str := Eval cbv in lit "application/json".
Definition k_authorization : str := Eval cbv in lit "Authorization".
Definition k_model : str := Eval cbv in lit "model".
Definition k_messages : str := Eval cbv in lit "messages".
Definition k_role : str := Eval cbv in lit "role".
Definition k_user : str := Eval cbv in lit "user".
Definition k_content : str := Eval cbv in lit "content".
Definition k_stream : str := Eval cbv in lit "stream".
Definition k_https : str := Eval cbv in lit "https".
Definition k_choices : str := Eval cbv in lit "choices".
Definition k_message : str := Eval cbv in lit "message".
Definition k_delta : str := Eval cbv in lit "delta".
Definition data_done : str := Eval cbv in lit "data: [DONE]".
Definition data_prefix : str := Eval cbv in lit "data: ".

(** Modelled from the spec: [AIModel.__init__] ([models/ai_model.py]), the
    constructor of the base class, which keeps the proxy settings of the
    configuration in [self.proxy]. *)
Definition AIModel_init (config_manager : ConfigManager) : pyobj :=
  proxy_settings config_manager.

(** The string an [Optional[str]] attribute holds. *)
Definition str_value (v : option str) : str :=
  match v with
  | Some s => s
  | None => []
  end.

(** [GPTModel.__init__] *)
Definition GPTModel_init (config_manager : ConfigManager) : pyres GPTModel :=
  let self_proxy := AIModel_init config_manager in
  let self_api_key := get_api_key config_manager provider_gpt in
  let self_model_name := get_model_name config_manager provider_gpt in
  if negb (truthy_opt self_api_key) then
    Raise (ValueError key_not_configured)
  else
    let self_model_name :=
      if negb (truthy_opt self_model_name) then Some default_model
      else self_model_name in
    Ok {| api_key := str_value self_api_key;
          model_name := str_value self_model_name;
          api_url := openai_url;
          proxy := self_proxy |}.

(** The [headers] dictionary of both methods. *)
Definition headers_of (self : GPTModel) : list (str * str) :=
  [(k_content_type, application_json);
   (k_authorization, bearer ++ api_key self)].

(** The [data] dictionary of both methods, [stream] being [False] in
    [generate] and [True] in [generate_stream]. *)
Definition data_of (self : GPTModel) (prompt : str) (stream : bool) : pyobj :=
  PyDict [(k_model, PyStr (model_name self));
          (k_messages,
           PyList [PyDict [(k_role, PyStr k_user);
                           (k_content, PyStr prompt)]]);
          (k_stream, PyBool stream)].

(** [self.proxy["https"] if self.proxy else None] *)
Definition proxy_of (self : GPTModel) : pyres pyobj :=
  if truthy (proxy self) then getitem_key (proxy self) k_https
  else Ok PyNone.

(** The arguments with which the method calls [session.post]. *)
Definition request_of (self : GPTModel) (prompt : str) (stream : bool)
  : pyres Request :=
  p <- proxy_of self ;;
  Ok {| post_url := api_url self;
        post_headers := headers_of self;
        post_json := data_of self prompt stream;
        post_proxy := p |}.

(** The message of the exception raised for a status other than 200:
    the text [api_error], the status in decimal, [" - "] and the body. *)
Definition error_message (status : Z) (error_text : str) : str :=
  api_error ++ str_of_int status ++ dash ++ error_text.

(** [result["choices"][0]["message"]["content"]] *)
Definition message_content (result : pyobj) : pyres pyobj :=
  choices <- getitem_key result k_choices ;;
  choice <- getitem_index choices 0 ;;
  message <- getitem_key choice k_message ;;
  getitem_key message k_content.

Section Methods.

(** [json.loads] *)
Variable json_loads : str -> pyres pyobj.

(** The network: what [session.post] with the given arguments leads to,
    a response or the exception of a failed exchange. *)
Variable post : Request -> pyres ClientResponse.

(** [GPTModel.generate] *)
Definition generate (self : GPTModel) (prompt : str) (callback : Callback)
  : pyres pyobj :=
  request <- request_of self prompt false ;;
  response <- post request ;;
  if negb (status response =? 200) then
    error_text <- text response ;;
    Raise (Exception (error_message (status response) error_text))
  else
    result <- json response ;;
    message_content result.

(** [data.get("choices", [{}])[0].get("delta", {}).get("content", "")] *)
Definition delta_content (data : pyobj) : pyres pyobj :=
  choices <- get data k_choices (PyList [PyDict []]) ;;
  choice <- getitem_index choices 0 ;;
  delta <- get choice k_delta (PyDict []) ;;
  get delta k_content (PyStr []).

(** The loop [async for line in response.content] of [generate_stream],
    over the lines the reader delivers: the objects yielded and the way
    the generator ends. *)
Fixpoint stream_loop (lines : list bytes) : list pyobj * ending :=
  match lines with
  | [] => ([], StopAsyncIteration)
  | raw :: lines' =>
    match decode_utf8 raw with
    | Raise e => ([], Raised e)
    | Ok decoded =>
      let line := strip decoded in
      if str_eqb line data_done then ([], StopAsyncIteration)
      else if startswith line data_prefix then
        let json_str := skipn 6 line in
        match (data <- json_loads json_str ;; delta_content data) with
        | Ok content =>
          if truthy content
          then let (ys, e) := stream_loop lines' in (content :: ys, e)
          else stream_loop lines'
        | Raise JSONDecodeError => stream_loop lines'
        | Raise e => ([], Raised e)
        end
      else stream_loop lines'
    end
  end.

(** [GPTModel.generate_stream] *)
Definition generate_stream
  (self : GPTModel) (prompt : str) (callback : Callback)
  : list pyobj * ending :=
  match (request <- request_of self prompt true ;; post request) with
  | Raise e => ([], Raised e)
  | Ok response =>
    if negb (status response =? 200) then
      match text response with
      | Ok error_text =>
        ([], Raised (Exception (error_message (status response) error_text)))
      | Raise e => ([], Raised e)
      end
    else stream_loop (iter_lines (content response))
  end.

End Methods.

End Client.

Import Client.

(* ================================================================= *)
(** * The vocabulary of the properties *)
(* ================================================================= *)

Module Vocabulary.

Section Frames.

Variable json_loads : str -> pyres pyobj.

(** [raw] is the sentinel line [data: [DONE]]. *)
Definition done_line (raw : bytes) : Prop :=
  exists decoded,
    decode_utf8 raw = Ok decoded /\ strip decoded = data_done.

(** [raw] is a line [data: <payload>] other than the sentinel. *)
Definition data_line (raw : bytes) (payload : str) : Prop :=
  exists decoded,
    decode_utf8 raw = Ok decoded /\
    strip decoded = data_prefix ++ payload /\
    strip decoded <> data_done.

(** [data] is a chunk object whose first choice carries the delta text
    [c]: [data["choices"][0]["delta"]["content"]] is the string [c]. *)
Definition delta_object (data : pyobj) (c : str) : Prop :=
  exists items choice others delta,
    data = PyDict items /\
    lookup k_choices items = Some (PyList (PyDict choice :: others)) /\
    lookup k_delta choice = Some (PyDict delta) /\
    lookup k_content delta = Some (PyStr c).

(** [raw] is a well-formed [data:] line carrying the delta text [c]. *)
Definition delta_line (raw : bytes) (c : str) : Prop :=
  exists payload data,
    data_line raw payload /\
    json_loads payload = Ok data /\
    delta_object data c.

(** [raw] is a [data:] line whose payload is not valid JSON. *)
Definition invalid_line (raw : bytes) : Prop :=
  exists payload,
    data_line raw payload /\ json_loads payload = Raise JSONDecodeError.

(** [raw] is a line without the [data: ] prefix. *)
Definition other_line (raw : bytes) : Prop :=
  exists decoded,
    decode_utf8 raw = Ok decoded /\
    startswith (strip decoded) data_prefix = false.

(** [frames lines texts]: up to the sentinel, or to the end when there is
    none, every line of [lines] is a well-formed [data:] line, a [data:]
    line with invalid JSON or a line without the prefix, and [texts] are
    the non-empty delta texts of the well-formed lines, in order. *)
Inductive frames : list bytes -> list str -> Prop :=
| frames_end : frames [] []
| frames_done raw rest :
    done_line raw -> frames (raw :: rest) []
| frames_delta raw c lines texts :
    delta_line raw c -> c <> [] -> frames lines texts ->
    frames (raw :: lines) (c :: texts)
| frames_empty raw lines texts :
    delta_line raw [] -> frames lines texts -> frames (raw :: lines) texts
| frames_invalid raw lines texts :
    invalid_line raw -> frames lines texts -> frames (raw :: lines) texts
| frames_other raw lines texts :
    other_line raw -> frames lines texts -> frames (raw :: lines) texts.

End Frames.

(** The content of the message of the first completion of a response
    envelope that has the fields [choices], [message] and [content]. *)
Definition envelope_content (envelope : pyobj) : option pyobj :=
  match envelope with
  | PyDict items =>
    match lookup k_choices items with
    | Some (PyList (PyDict choice :: _)) =>
      match lookup k_message choice with
      | Some (PyDict message) => lookup k_content message
      | _ => None
      end
    | _ => None
    end
  | _ => None
  end.

(** The exceptions of a subscript that fails. *)
Definition lookup_error (e : exn) : bool :=
  match e with
  | KeyError _ | IndexError | TypeError => true
  | _ => false
  end.

(** The exceptions with which decoding a response can end: those of a
    subscript or attribute access that fails and the two decoding
    errors. *)
Definition decode_failure (e : exn) : bool :=
  match e with
  | KeyError _ | IndexError | TypeError | AttributeError
  | JSONDecodeError | UnicodeDecodeError | ContentTypeError _ => true
  | _ => false
  end.

(** The exceptions with which aiohttp reports an exchange that failed. *)
Definition transport_failure (e : exn) : bool :=
  match e with
  | ClientConnectionError _ | TimeoutError => true
  | _ => false
  end.

(** The exceptions with which [response.json()] reports a body that is not
    a JSON document. *)
Definition not_json (e : exn) : bool :=
  match e with
  | JSONDecodeError | ContentTypeError _ => true
  | _ => false
  end.

(** The kinds of provider error. *)
Inductive ErrorKind : Type :=
| ConfigurationError
| TransportError
| HttpStatusError
| ProtocolDecodeError.

(** The kind of provider error that the class of an exception names.
    [ValueError] is what the constructor raises for a missing key,
    [Exception] what both methods raise for a status other than 200,
    [ClientConnectionError] and [TimeoutError] what aiohttp raises for a
    failed exchange, and the decoding errors are raised for bytes or text
    that cannot be decoded. The exceptions that the interpreter raises for
    a failed subscript or attribute access name no kind. *)
Definition provider_error (e : exn) : option ErrorKind :=
  match e with
  | ValueError _ => Some ConfigurationError
  | ClientConnectionError _ | TimeoutError => Some TransportError
  | Exception _ => Some HttpStatusError
  | JSONDecodeError | UnicodeDecodeError | ContentTypeError _ =>
    Some ProtocolDecodeError
  | KeyError _ | IndexError | TypeError | AttributeError => None
  end.

(** Two exceptions are instances of the same class. *)
Definition same_class (e1 e2 : exn) : bool :=
  match e1, e2 with
  | ValueError _, ValueError _ => true
  | Exception _, Exception _ => true
  | KeyError _, KeyError _ => true
  | IndexError, IndexError => true
  | TypeError, TypeError => true
  | AttributeError, AttributeError => true
  | JSONDecodeError, JSONDecodeError => true
  | UnicodeDecodeError, UnicodeDecodeError => true
  | ClientConnectionError _, ClientConnectionError _ => true
  | TimeoutError, TimeoutError => true
  | ContentTypeError _, ContentTypeError _ => true
  | _, _ => false
  end.

Section Failures.

Variable json_loads : str -> pyres pyobj.
Variable post : Request -> pyres ClientResponse.

(** The method, [generate_stream] when [stream] holds and [generate]
    otherwise, raises [e], and this before it has yielded anything. *)
Definition fails_with
  (stream : bool) (self : GPTModel) (prompt : str) (callback : Callback)
  (e : exn) : Prop :=
  if stream
  then generate_stream json_loads post self prompt callback = ([], Raised e)
  else generate post self prompt callback = Raise e.

(** [occurs kind e]: the client raises [e] in a situation of the given
    kind. The situations are: the constructor fails; the exchange fails
    with an error of aiohttp; the status of the response is not 200; the
    status is 200 and the body is not JSON, or the envelope lacks the
    expected fields, or a line of the stream cannot be decoded
    ([json.loads] raising nothing but [JSONDecodeError]). In each run the
    request is built, so the proxy argument is evaluated without an
    error; a failed exchange is reported with a connection or timeout
    error; the body of a response with another status than 200 is read
    as text; a body that is not JSON is reported with [JSONDecodeError]
    or [ContentTypeError]. Other runs are not described: there two kinds
    of situation can end with the same exception. *)
Inductive occurs : ErrorKind -> exn -> Prop :=
| occurs_configuration config_manager e :
    GPTModel_init config_manager = Raise e ->
    occurs ConfigurationError e
| occurs_transport stream self prompt callback request e0 e :
    request_of self prompt stream = Ok request ->
    post request = Raise e0 ->
    transport_failure e0 = true ->
    fails_with stream self prompt callback e ->
    occurs TransportError e
| occurs_status stream self prompt callback request response body e :
    request_of self prompt stream = Ok request ->
    post request = Ok response ->
    status response <> 200 ->
    text response = Ok body ->
    fails_with stream self prompt callback e ->
    occurs HttpStatusError e
| occurs_decode_json self prompt callback request response e0 e :
    request_of self prompt false = Ok request ->
    post request = Ok response ->
    status response = 200 ->
    json response = Raise e0 ->
    not_json e0 = true ->
    generate post self prompt callback = Raise e ->
    occurs ProtocolDecodeError e
| occurs_decode_envelope self prompt callback request response envelope e :
    request_of self prompt false = Ok request ->
    post request = Ok response ->
    status response = 200 ->
    json response = Ok envelope ->
    generate post self prompt callback = Raise e ->
    occurs ProtocolDecodeError e
| occurs_decode_line self prompt callback request response e :
    (forall s e', json_loads s = Raise e' -> e' = JSONDecodeError) ->
    request_of self prompt true = Ok request ->
    post request = Ok response ->
    status response = 200 ->
    snd (generate_stream json_loads post self prompt callback) = Raised e ->
    occurs ProtocolDecodeError e.

End Failures.

End Vocabulary.

Import Vocabulary.

(* ================================================================= *)
(** * Sample configurations, responses and networks *)
(* ================================================================= *)

(** A configuration with a key for the provider and no model name. *)
Definition sample_config : ConfigManager :=
  {| get_api_key := fun provider =>
       if str_eqb provider provider_gpt then Some (lit "sk-test") else None;
     get_model_name := fun _ => None;
     proxy_settings := PyNone |}.

(** A configuration without a key, and one with an empty key. *)
Definition keyless_config : ConfigManager :=
  {| get_api_key := fun _ => None;
     get_model_name := fun _ => Some (lit "gpt-4o");
     proxy_settings := PyNone |}.
Definition empty_key_config : ConfigManager :=
  {| get_api_key := fun _ => Some [];
     get_model_name := fun _ => Some (lit "gpt-4o");
     proxy_settings := PyNone |}.

(** The client [GPTModel(sample_config)]. *)
Definition sample_self : GPTModel :=
  {| api_key := lit "sk-test";
     model_name := default_model;
     api_url := openai_url;
     proxy := PyNone |}.

Definition sample_prompt : str := lit "Say hello".

(** The bytes of a line of ASCII text, with its line feed; an apostrophe
    stands for the quotation mark. *)
Definition wire_line (s : string) : bytes := JsonText.text s ++ [10].

(** A response with status 200 whose body arrives in the given chunks. *)
Definition streamed (chunks : list bytes) : ClientResponse :=
  {| status := 200;
     text := Ok (List.concat chunks);
     json := JsonText.loads (List.concat chunks);
     content := chunks |}.

(** A response with the given status and an ASCII body. *)
Definition buffered (code : Z) (body : string) : ClientResponse :=
  {| status := code;
     text := Ok (JsonText.text body);
     json := JsonText.loads (JsonText.text body);
     content := [JsonText.text body] |}.

(** A well-formed envelope, an envelope without fields, and the body of a
    rejected request. *)
Definition hello_envelope : ClientResponse :=
  buffered 200
    "{'choices': [{'message': {'role': 'assistant', 'content': 'Hello!'}}]}".
Definition bare_envelope : ClientResponse := buffered 200 "{}".
Definition rate_limited : ClientResponse :=
  buffered 429 "{'error': {'message': 'Rate limit reached'}}".

(** A network that answers every request with the same response. *)
Definition answering (r : ClientResponse) : Request -> pyres ClientResponse :=
  fun _ => Ok r.

(** A network on which every exchange fails. *)
Definition unreachable : Request -> pyres ClientResponse :=
  fun _ => Raise (ClientConnectionError (lit "Cannot connect to host")).

Definition hel_line : bytes :=
  wire_line "data: {'choices': [{'delta': {'content': 'Hel'}}]}".
Definition lo_line : bytes :=
  wire_line "data: {'choices': [{'delta': {'content': 'lo'}}]}".
Definition role_line : bytes :=
  wire_line "data: {'choices': [{'delta': {'content': ''}}]}".
Definition done_bytes : bytes := wire_line "data: [DONE]".
Definition late_line : bytes :=
  wire_line "data: {'choices': [{'delta': {'content': 'late'}}]}".
Definition broken_line : bytes := wire_line "data: {'choices': [{'del".
Definition blank_line : bytes := wire_line "".

(** Two deltas, the sentinel, and a delta after it. *)
Definition hello_stream : ClientResponse :=
  streamed [hel_line; lo_line; done_bytes; late_line].

(** The same body, the second line arriving in two chunks, cut after
    [cut] bytes: inside the prefix for [cut = 3], inside the JSON payload
    for [cut = 30]. *)
Definition hello_stream_cut (cut : nat) : ClientResponse :=
  streamed [hel_line; firstn cut lo_line; skipn cut lo_line;
            done_bytes; late_line].

(** A delta, then a chunk object whose list of choices is empty. *)
Definition empty_choices_line : bytes := wire_line "data: {'choices': []}".
Definition empty_choices_stream : ClientResponse :=
  streamed [hel_line; empty_choices_line; lo_line; done_bytes].

(** Chunk objects in which the key [choices], [delta] or [content] is
    absent, between two deltas. *)
Definition sparse_stream : ClientResponse :=
  streamed [hel_line;
            wire_line "data: {}";
            wire_line "data: {'choices': [{'index': 0}]}";
            wire_line "data: {'choices': [{'delta': {'role': 'assistant'}}]}";
            lo_line; done_bytes].

(** A delta, a broken line, an empty delta, a blank line and a delta. *)
Definition noisy_stream : ClientResponse :=
  streamed [hel_line; broken_line; role_line; blank_line; lo_line;
            done_bytes].

(* ================================================================= *)
(** * Further vocabulary and samples *)
(* ================================================================= *)

(** A byte of ASCII white space: tab, line feed, vertical tab, form feed,
    carriage return, the four separators and the space. *)
Definition ascii_space (b : Z) : bool := between 9 13 b || between 28 32 b.

Section Passed.

Variable json_loads : str -> pyres pyobj.

(** [passed lines texts]: none of [lines] is the sentinel, each is a
    well-formed [data:] line, a [data:] line with invalid JSON or a line
    without the prefix, and [texts] are the non-empty delta texts of the
    well-formed lines, in order. *)
Inductive passed : list bytes -> list str -> Prop :=
| passed_nil : passed [] []
| passed_delta raw c lines texts :
    delta_line json_loads raw c -> c <> [] -> passed lines texts ->
    passed (raw :: lines) (c :: texts)
| passed_empty raw lines texts :
    delta_line json_loads raw [] -> passed lines texts ->
    passed (raw :: lines) texts
| passed_invalid raw lines texts :
    invalid_line json_loads raw -> passed lines texts ->
    passed (raw :: lines) texts
| passed_other raw lines texts :
    other_line raw -> passed lines texts -> passed (raw :: lines) texts.

End Passed.

(** The two deltas of [hello_stream] and nothing else: the body ends
    without a sentinel. *)
Definition unterminated_stream : ClientResponse :=
  streamed [hel_line; lo_line].

(** The logical lines of [hello_stream], without their line feeds. *)
Definition hello_logical : list bytes :=
  [JsonText.text "data: {'choices': [{'delta': {'content': 'Hel'}}]}";
   JsonText.text "data: {'choices': [{'delta': {'content': 'lo'}}]}";
   JsonText.text "data: [DONE]";
   JsonText.text "data: {'choices': [{'delta': {'content': 'late'}}]}"].

(** A comment line, and a [data:] line without the space after the
    colon. *)
Definition comment_line : bytes := wire_line ": keep-alive".
Definition tight_line : bytes :=
  wire_line "data:{'choices': [{'delta': {'content': 'lost'}}]}".

(** The second delta without a line feed, and the same indented and ended
    by a carriage return and a line feed. *)
Definition lo_text : bytes :=
  JsonText.text "data: {'choices': [{'delta': {'content': 'lo'}}]}".
Definition lo_padded : bytes := [32; 9] ++ lo_text ++ [13; 10].

(** A line that is not UTF-8, and a line whose document is a number. *)
Definition latin1_line : bytes := [100; 97; 116; 97; 58; 32; 233; 10].
Definition number_line : bytes := wire_line "data: 5".

(** A client whose proxy settings have an entry for [http] only. *)
Definition http_only_self : GPTModel :=
  {| api_key := lit "sk-test";
     model_name := default_model;
     api_url := openai_url;
     proxy := PyDict [(lit "http", PyStr (lit "http://127.0.0.1:7890"))] |}.

(** A configuration with a key and a model name. *)
Definition full_config : ConfigManager :=
  {| get_api_key := fun _ => Some (lit "sk-test");
     get_model_name := fun _ => Some (lit "gpt-4o");
     proxy_settings := PyNone |}.

(** The exception of the first subscript of
    [result["choices"][0]["message"]["content"]] that fails, read off the
    envelope; nothing when the envelope has the content.
    - [KeyError] with the key, when the key [choices], [message] or
      [content] is absent from the dictionary subscripted, and
      [KeyError] with [0] when [choices] is itself a dictionary;
    - [IndexError], when [choices] is an empty list or an empty string;
    - [TypeError], when the envelope, the first choice or the message is
      not a dictionary, or [choices] is [None], a number, a boolean or a
      string that is not empty (whose first character is subscripted
      next). *)
Definition envelope_fault (envelope : pyobj) : option exn :=
  match envelope with
  | PyDict items =>
    match lookup k_choices items with
    | None => Some (KeyError (PyStr k_choices))
    | Some (PyDict _) => Some (KeyError (PyInt 0))
    | Some (PyList []) => Some IndexError
    | Some (PyStr []) => Some IndexError
    | Some (PyList (PyDict choice :: _)) =>
      match lookup k_message choice with
      | None => Some (KeyError (PyStr k_message))
      | Some (PyDict message) =>
        match lookup k_content message with
        | None => Some (KeyError (PyStr k_content))
        | Some _ => None
        end
      | Some _ => Some TypeError
      end
    | Some _ => Some TypeError
    end
  | _ => Some TypeError
  end.

(** The kind of the situation in which a method fails, given what the
    exchange led to: the exchange failed; the endpoint answered with a
    status other than 200; the status is 200 and the response cannot be
    decoded. *)
Definition failure_kind (exchange : pyres ClientResponse) : ErrorKind :=
  match exchange with
  | Raise _ => TransportError
  | Ok response =>
    if status response =? 200 then ProtocolDecodeError else HttpStatusError
  end.

(** A response with status 500 whose body cannot be decoded as text, and
    a response with status 200 whose only line is not UTF-8. *)
Definition unreadable_500 : ClientResponse :=
  {| status := 500;
     text := Raise UnicodeDecodeError;
     json := Raise UnicodeDecodeError;
     content := [[255; 254; 10]] |}.
Definition latin1_stream : ClientResponse := streamed [latin1_line].

(** Envelopes that lack the content in different ways. *)
Definition dict_choices_envelope : ClientResponse :=
  buffered 200 "{'choices': {}}".
Definition no_choice_envelope : ClientResponse :=
  buffered 200 "{'choices': []}".
Definition text_message_envelope : ClientResponse :=
  buffered 200 "{'choices': [{'message': 'hi'}]}".
Definition no_content_envelope : ClientResponse :=
  buffered 200 "{'choices': [{'message': {'role': 'assistant'}}]}".

(** An envelope whose message has no text: the content is [null]. *)
Definition null_content_envelope : ClientResponse :=
  buffered 200 "{'choices': [{'message': {'content': null}}]}".

(* ================================================================= *)
(** * The statistics dialog: [StatisticsDialog._calculate_statistics] and
      [StatisticsDialog._draw_charts] ([ui/statistics_dialog.py])

    The two methods compute the statistics of a novel from its outline and
    show them. The model keeps what they compute: the counters and the two
    lists of rows of [_calculate_statistics] and the series that
    [_draw_charts] hands to the plotting library. The calls on the widgets
    and on the plotting library are not modelled, nor are the average
    chapter length and the completion rate, which are floating-point
    numbers. Counters and lengths, which are never negative, are natural
    numbers. *)
(* ================================================================= *)

Module StatisticsDialog.

(** ** [len] and iteration *)

(** The keys of a [dict], each once, in insertion order. *)
Fixpoint distinct_keys (items : list (str * pyobj)) : list str :=
  match items with
  | [] => []
  | (k, _) :: items' =>
    k :: filter (fun k' => negb (str_eqb k' k)) (distinct_keys items')
  end.

(** [len(v)] *)
Definition len (v : pyobj) : pyres nat :=
  match v with
  | PyStr s => Ok (List.length s)
  | PyList l => Ok (List.length l)
  | PyDict items => Ok (List.length (distinct_keys items))
  | _ => Raise TypeError
  end.

(** The objects that iterating over [v] delivers. *)
Definition iterate (v : pyobj) : pyres (list pyobj) :=
  match v with
  | PyList l => Ok l
  | PyStr s => Ok (map (fun c => PyStr [c]) s)
  | PyDict items => Ok (map PyStr (distinct_keys items))
  | _ => Raise TypeError
  end.

(** ** The data *)

(** The data manager, as far as the dialog reads it. *)
Record DataManager : Type := {
  get_outline : pyres pyobj;
  get_chapter : nat -> nat -> pyres pyobj
}.

(** An entry of [chapter_stats]. *)
Record ChapterStat : Type := {
  chapter_volume_index : nat;
  chapter_index : nat;
  chapter_title : pyobj;
  chapter_word_count : nat;
  chapter_is_completed : bool
}.

(** An entry of [volume_stats]. *)
Record VolumeStat : Type := {
  volume_index : nat;
  volume_title : pyobj;
  volume_chapter_count : nat;
  volume_word_count : nat;
  volume_completed_chapters : nat
}.

(** The counters and lists that the loops of [_calculate_statistics]
    update. *)
Record Locals : Type := {
  total_chapters : nat;
  completed_chapters : nat;
  total_words : nat;
  volume_stats : list VolumeStat;
  chapter_stats : list ChapterStat
}.

(** What [_draw_charts] plots: the bars of the first chart, and the data
    of the histogram when it is drawn. *)
Record Charts : Type := {
  bar_positions : list nat;
  bar_heights : list nat;
  histogram : option (list nat)
}.

(** What a call of [_calculate_statistics] computes. *)
Record Statistics : Type := {
  title : pyobj;
  volume_count : nat;
  counted : Locals;
  charts : Charts
}.

Definition k_title : str := Eval cbv in lit "title".
Definition k_volumes : str := Eval cbv in lit "volumes".
Definition k_chapters : str := Eval cbv in lit "chapters".

(** The default title of a novel. *)
Definition untitled : str := [0x672A; 0x547D; 0x540D; 0x5C0F; 0x8BF4].

(** The default title of the [n]-th volume ([unit] is the character for
    volume) or chapter ([unit] is the character for chapter). *)
Definition numbered (n : nat) (unit : Z) : str :=
  0x7B2C :: str_of_int (Z.of_nat n) ++ [unit].
Definition unit_volume : Z := 0x5377.
Definition unit_chapter : Z := 0x7AE0.

(** ** [_draw_charts] *)

Definition draw_charts
  (volume_stats : list VolumeStat) (chapter_stats : list ChapterStat)
  : Charts :=
  let volume_indices := map (fun stat => volume_index stat + 1)%nat
                            volume_stats in
  let volume_words := map volume_word_count volume_stats in
  let chapter_words :=
    map chapter_word_count
        (filter (fun stat => (0 <? chapter_word_count stat)%nat)
                chapter_stats) in
  {| bar_positions := volume_indices;
     bar_heights := volume_words;
     histogram := if is_nil chapter_words then None else Some chapter_words |}.

(** ** [_calculate_statistics] *)

(** The loop over the chapters of volume [i], from chapter [j] on;
    [volume_words] and [volume_completed_chapters] are the two counters of
    the volume. *)
Fixpoint chapters_loop
  (data_manager : DataManager) (i j : nat) (chapters : list pyobj)
  (st : Locals) (volume_words volume_completed_chapters : nat)
  : pyres (Locals * nat * nat) :=
  match chapters with
  | [] => Ok (st, volume_words, volume_completed_chapters)
  | chapter :: chapters' =>
    chapter_title <-
      get chapter k_title (PyStr (numbered (j + 1) unit_chapter)) ;;
    content <- get_chapter data_manager i j ;;
    word_count <- (if truthy content then len content else Ok 0%nat) ;;
    let is_completed := (0 <? word_count)%nat in
    let st' :=
      {| total_chapters := total_chapters st;
         completed_chapters :=
           if is_completed then (completed_chapters st + 1)%nat
           else completed_chapters st;
         total_words := (total_words st + word_count)%nat;
         volume_stats := volume_stats st;
         chapter_stats :=
           chapter_stats st ++
           [{| chapter_volume_index := i;
               chapter_index := j;
               chapter_title := chapter_title;
               chapter_word_count := word_count;
               chapter_is_completed := is_completed |}] |} in
    chapters_loop data_manager i (j + 1) chapters' st'
                  (volume_words + word_count)%nat
                  (if is_completed then (volume_completed_chapters + 1)%nat
                   else volume_completed_chapters)
  end.

(** The loop over the volumes, from volume [i] on. *)
Fixpoint volumes_loop
  (data_manager : DataManager) (i : nat) (volumes : list pyobj)
  (st : Locals) : pyres Locals :=
  match volumes with
  | [] => Ok st
  | volume :: volumes' =>
    volume_title <-
      get volume k_title (PyStr (numbered (i + 1) unit_volume)) ;;
    chapters <- get volume k_chapters (PyList []) ;;
    chapter_count <- len chapters ;;
    let st1 :=
      {| total_chapters := (total_chapters st + chapter_count)%nat;
         completed_chapters := completed_chapters st;
         total_words := total_words st;
         volume_stats := volume_stats st;
         chapter_stats := chapter_stats st |} in
    items <- iterate chapters ;;
    r <- chapters_loop data_manager i 0 items st1 0 0 ;;
    let '(st2, volume_words, volume_completed_chapters) := r in
    let st3 :=
      {| total_chapters := total_chapters st2;
         completed_chapters := completed_chapters st2;
         total_words := total_words st2;
         volume_stats :=
           volume_stats st2 ++
           [{| volume_index := i;
               volume_title := volume_title;
               volume_chapter_count := chapter_count;
               volume_word_count := volume_words;
               volume_completed_chapters := volume_completed_chapters |}];
         chapter_stats := chapter_stats st2 |} in
    volumes_loop data_manager (i + 1) volumes' st3
  end.

(** [_calculate_statistics]: nothing for an outline that is empty or
    missing, the statistics otherwise. *)
Definition calculate_statistics (data_manager : DataManager)
  : pyres (option Statistics) :=
  outline <- get_outline data_manager ;;
  if negb (truthy outline) then Ok None
  else
    title <- get outline k_title (PyStr untitled) ;;
    volumes <- get outline k_volumes (PyList []) ;;
    volume_count <- len volumes ;;
    items <- iterate volumes ;;
    st <- volumes_loop data_manager 0 items
            {| total_chapters := 0; completed_chapters := 0;
               total_words := 0; volume_stats := []; chapter_stats := [] |} ;;
    Ok (Some {| title := title;
                volume_count := volume_count;
                counted := st;
                charts := draw_charts (volume_stats st) (chapter_stats st) |}).

(** ** Vocabulary *)

(** The rows of the chapters of volume [i]. *)
Definition rows_of (i : nat) (rows : list ChapterStat) : list ChapterStat :=
  filter (fun row => Nat.eqb (chapter_volume_index row) i) rows.

(** The words of a list of rows, and its completed rows. *)
Definition words_of (rows : list ChapterStat) : nat :=
  list_sum (map chapter_word_count rows).
Definition completed_of (rows : list ChapterStat) : list ChapterStat :=
  filter chapter_is_completed rows.

(** A row says completed exactly when it has words. *)
Definition row_sound (row : ChapterStat) : Prop :=
  chapter_is_completed row = (0 <? chapter_word_count row)%nat.

(** The volume and chapter numbers of a row. *)
Definition position_of (row : ChapterStat) : nat * nat :=
  (chapter_volume_index row, chapter_index row).

(** The entry of a volume agrees with the rows of its chapters. *)
Definition volume_sound (rows : list ChapterStat) (v : VolumeStat) : Prop :=
  volume_chapter_count v = List.length (rows_of (volume_index v) rows)
  /\ volume_word_count v = words_of (rows_of (volume_index v) rows)
  /\ volume_completed_chapters v
     = List.length (completed_of (rows_of (volume_index v) rows)).

(** What holds of the counters and lists between two volumes, when [i]
    volumes have been gone through. *)
Definition consistent (i : nat) (st : Locals) : Prop :=
  total_chapters st = List.length (chapter_stats st)
  /\ total_words st = words_of (chapter_stats st)
  /\ completed_chapters st = List.length (completed_of (chapter_stats st))
  /\ Forall row_sound (chapter_stats st)
  /\ map volume_index (volume_stats st) = seq 0 i
  /\ map position_of (chapter_stats st)
     = flat_map (fun v => map (pair (volume_index v))
                              (seq 0 (volume_chapter_count v)))
                (volume_stats st)
  /\ Forall (volume_sound (chapter_stats st)) (volume_stats st)
  /\ Forall (fun row => (chapter_volume_index row < i)%nat) (chapter_stats st)
  /\ list_sum (map volume_chapter_count (volume_stats st))
     = total_chapters st
  /\ list_sum (map volume_word_count (volume_stats st)) = total_words st
  /\ list_sum (map volume_completed_chapters (volume_stats st))
     = completed_chapters st.

(** A novel of two volumes: the first has three chapters, the second of
    which is written and the third empty; the second volume has no
    chapter list. *)
Definition sample_outline : pyobj :=
  PyDict [(k_title, PyStr (lit "Dune"));
          (k_volumes,
           PyList [PyDict [(k_title, PyStr (lit "Arrakis"));
                           (k_chapters,
                            PyList [PyDict [(k_title, PyStr (lit "One"))];
                                    PyDict [];
                                    PyDict []])];
                   PyDict []])].

Definition sample_manager : DataManager :=
  {| get_outline := Ok sample_outline;
     get_chapter := fun i j =>
       match i, j with
       | O, O => Ok (PyStr (lit "A beginning is a delicate time."))
       | O, S O => Ok (PyStr (lit "Spice."))
       | O, S (S O) => Ok (PyStr [])
       | _, _ => Ok PyNone
       end |}.

(** A row gives the content of its chapter: the content that the data
    manager holds for the volume and chapter numbers of the row has the
    number of characters that the row gives, none when the content is
    missing or empty, and the row says completed exactly when the content
    has at least one character. *)
Definition row_of_content (data_manager : DataManager) (row : ChapterStat)
  : Prop :=
  exists content,
    get_chapter data_manager (chapter_volume_index row) (chapter_index row)
    = Ok content
    /\ (if truthy content then len content else Ok 0%nat)
       = Ok (chapter_word_count row)
    /\ (chapter_is_completed row = true
        <-> exists n, len content = Ok (S n)).

(** A row is the row of a chapter of the outline: its title is the title
    of the chapter, or the numbered default. *)
Definition chapter_row_of (chapter : pyobj) (row : ChapterStat) : Prop :=
  get chapter k_title (PyStr (numbered (chapter_index row + 1) unit_chapter))
  = Ok (chapter_title row).

(** An entry is the entry of a volume of the outline: its title is the
    title of the volume, or the numbered default, its chapter count is
    the length of the chapters of the volume, and the rows with its
    volume number are the rows of these chapters, one for each, in
    order. *)
Definition volume_row_of
  (rows : list ChapterStat) (volume : pyobj) (v : VolumeStat) : Prop :=
  get volume k_title (PyStr (numbered (volume_index v + 1) unit_volume))
  = Ok (volume_title v)
  /\ exists chapters_obj chapters,
      get volume k_chapters (PyList []) = Ok chapters_obj
      /\ len chapters_obj = Ok (volume_chapter_count v)
      /\ iterate chapters_obj = Ok chapters
      /\ Forall2 chapter_row_of chapters (rows_of (volume_index v) rows).

(** The statistics of the sample novel. *)
Definition sample_statistics : Statistics :=
  {| title := PyStr (lit "Dune");
     volume_count := 2;
     counted :=
       {| total_chapters := 3;
          completed_chapters := 2;
          total_words := 37;
          volume_stats :=
            [{| volume_index := 0;
                volume_title := PyStr (lit "Arrakis");
                volume_chapter_count := 3;
                volume_word_count := 37;
                volume_completed_chapters := 2 |};
             {| volume_index := 1;
                volume_title := PyStr (numbered 2 unit_volume);
                volume_chapter_count := 0;
                volume_word_count := 0;
                volume_completed_chapters := 0 |}];
          chapter_stats :=
            [{| chapter_volume_index := 0;
                chapter_index := 0;
                chapter_title := PyStr (lit "One");
                chapter_word_count := 31;
                chapter_is_completed := true |};
             {| chapter_volume_index := 0;
                chapter_index := 1;
                chapter_title := PyStr (numbered 2 unit_chapter);
                chapter_word_count := 6;
                chapter_is_completed := true |};
             {| chapter_volume_index := 0;
                chapter_index := 2;
                chapter_title := PyStr (numbered 3 unit_chapter);
                chapter_word_count := 0;
                chapter_is_completed := false |}] |};
     charts :=
       {| bar_positions := [1; 2]%nat;
          bar_heights := [37; 0]%nat;
          histogram := Some [31; 6]%nat |} |}.

End StatisticsDialog.

(* ================================================================= *)
(** * Properties *)
(* ================================================================= *)

(** ** Strings *)

Lemma str_eqb_eq (a b : str) : str_eqb a b = true <-> a = b.
Proof.
  revert b; induction a as [|x a IH]; intros [|y b]; simpl;
    try (split; [discriminate | discriminate]); try tauto.
  rewrite andb_true_iff, Z.eqb_eq, IH.
  split; [intros [-> ->]; reflexivity | intros H; inversion H; auto].
Qed.

Lemma str_eqb_neq (a b : str) : a <> b -> str_eqb a b = false.
Proof.
  intros H; destruct (str_eqb a b) eqn:E; [|reflexivity].
  apply str_eqb_eq in E; contradiction.
Qed.

Lemma str_eqb_refl (a : str) : str_eqb a a = true.
Proof. apply str_eqb_eq; reflexivity. Qed.

(** ** The line reader: the lines do not depend on how the body is cut
       into chunks *)

Lemma feed_data_app (a b pending : bytes) :
  feed_data pending (a ++ b) =
  let (l1, p1) := feed_data pending a in
  let (l2, p2) := feed_data p1 b in
  (l1 ++ l2, p2).
Proof.
  revert pending; induction a as [|x a IH]; intros pending; simpl.
  - destruct (feed_data pending b); reflexivity.
  - destruct (x =? 10).
    + rewrite IH. destruct (feed_data [] a) as [l1 p1].
      destruct (feed_data p1 b) as [l2 p2]. reflexivity.
    + apply IH.
Qed.

Lemma readlines_concat (chunks : list bytes) (pending : bytes) :
  readlines pending chunks = readlines pending [List.concat chunks].
Proof.
  revert pending; induction chunks as [|c chunks IH]; intros pending.
  - simpl. destruct pending; reflexivity.
  - cbn [List.concat readlines]. rewrite feed_data_app.
    destruct (feed_data pending c) as [l1 p1].
    rewrite (IH p1). cbn [readlines].
    destruct (feed_data p1 (List.concat chunks)) as [l2 p2].
    rewrite app_assoc. reflexivity.
Qed.

Lemma iter_lines_concat (chunks1 chunks2 : list bytes) :
  List.concat chunks1 = List.concat chunks2 ->
  iter_lines chunks1 = iter_lines chunks2.
Proof.
  intros H. unfold iter_lines.
  rewrite (readlines_concat chunks1), (readlines_concat chunks2), H.
  reflexivity.
Qed.

Lemma iter_lines_split (before after : list bytes) (a b : bytes) :
  iter_lines (before ++ (a ++ b) :: after) =
  iter_lines (before ++ a :: b :: after).
Proof.
  apply iter_lines_concat. rewrite !concat_app. simpl.
  rewrite <- app_assoc. reflexivity.
Qed.

(** A line with its line feed. *)
Lemma feed_data_line (pending l rest : bytes) :
  ~ In 10 l ->
  feed_data pending (l ++ 10 :: rest) =
  ((pending ++ l ++ [10]) :: fst (feed_data [] rest),
   snd (feed_data [] rest)).
Proof.
  revert pending; induction l as [|x l IH]; intros pending Hl; simpl.
  - destruct (feed_data [] rest); reflexivity.
  - destruct (x =? 10) eqn:E.
    + apply Z.eqb_eq in E. exfalso. apply Hl. left. exact E.
    + rewrite IH by (intros H; apply Hl; right; exact H).
      rewrite <- app_assoc. reflexivity.
Qed.

Lemma feed_data_lines (ls : list bytes) :
  Forall (fun l => ~ In 10 l) ls ->
  feed_data [] (List.concat (map (fun l => l ++ [10]) ls)) =
  (map (fun l => l ++ [10]) ls, []).
Proof.
  induction 1 as [|l ls Hl _ IH]; [reflexivity|].
  cbn [map List.concat]. rewrite <- app_assoc. cbn [app].
  rewrite (feed_data_line _ _ _ Hl), IH. reflexivity.
Qed.

(** However the bytes of a body made of lines, each ended by its line
    feed, are cut into chunks, the reader delivers these lines. *)
Lemma iter_lines_of_lines (ls chunks : list bytes) :
  Forall (fun l => ~ In 10 l) ls ->
  List.concat chunks = List.concat (map (fun l => l ++ [10]) ls) ->
  iter_lines chunks = map (fun l => l ++ [10]) ls.
Proof.
  intros Hl Hc. unfold iter_lines.
  rewrite readlines_concat, Hc. cbn [readlines].
  rewrite (feed_data_lines _ Hl). cbn. apply app_nil_r.
Qed.

(** ** Subscripts *)

Lemma startswith_app (p s : str) : startswith (p ++ s) p = true.
Proof.
  induction p as [|x p IH]; simpl; [destruct s; reflexivity|].
  rewrite Z.eqb_refl. exact IH.
Qed.

Lemma getitem_index_first (x : pyobj) (l : list pyobj) :
  getitem_index (PyList (x :: l)) 0 = Ok x.
Proof. reflexivity. Qed.

(** ** The loop of [generate_stream], line by line *)

Section StreamLoop.

Variable json_loads : str -> pyres pyobj.

Local Abbreviation stream_loop := (stream_loop json_loads).
Local Abbreviation delta_line := (delta_line json_loads).
Local Abbreviation invalid_line := (invalid_line json_loads).
Local Abbreviation frames := (frames json_loads).

Lemma delta_content_object (data : pyobj) (c : str) :
  delta_object data c -> delta_content data = Ok (PyStr c).
Proof.
  intros (items & choice & others & delta & -> & Hc & Hd & Hk).
  unfold delta_content. simpl. rewrite Hc. simpl.
  rewrite Hd. simpl. rewrite Hk. reflexivity.
Qed.

Lemma stream_loop_done (raw : bytes) (rest : list bytes) :
  done_line raw -> stream_loop (raw :: rest) = ([], StopAsyncIteration).
Proof.
  intros (decoded & Hd & Hs). simpl. rewrite Hd, Hs. reflexivity.
Qed.

Lemma stream_loop_data (raw : bytes) (payload : str) (rest : list bytes) :
  data_line raw payload ->
  stream_loop (raw :: rest) =
  match (data <- json_loads payload ;; delta_content data) with
  | Ok content =>
    if truthy content
    then let (ys, e) := stream_loop rest in (content :: ys, e)
    else stream_loop rest
  | Raise JSONDecodeError => stream_loop rest
  | Raise e => ([], Raised e)
  end.
Proof.
  intros (decoded & Hd & Hs & Hn). cbn [Client.stream_loop].
  rewrite Hd, (str_eqb_neq _ _ Hn), Hs, startswith_app. reflexivity.
Qed.

Lemma stream_loop_delta (raw : bytes) (c : str) (rest : list bytes) :
  delta_line raw c -> c <> [] ->
  stream_loop (raw :: rest) =
  (PyStr c :: fst (stream_loop rest), snd (stream_loop rest)).
Proof.
  intros (payload & data & Hl & Hj & Ho) Hc.
  rewrite (stream_loop_data _ _ _ Hl), Hj. cbn [bind].
  rewrite (delta_content_object _ _ Ho).
  destruct c; [contradiction|]. simpl.
  destruct (stream_loop rest); reflexivity.
Qed.

Lemma stream_loop_empty (raw : bytes) (rest : list bytes) :
  delta_line raw [] -> stream_loop (raw :: rest) = stream_loop rest.
Proof.
  intros (payload & data & Hl & Hj & Ho).
  rewrite (stream_loop_data _ _ _ Hl), Hj. cbn [bind].
  rewrite (delta_content_object _ _ Ho). reflexivity.
Qed.

Lemma stream_loop_invalid (raw : bytes) (rest : list bytes) :
  invalid_line raw -> stream_loop (raw :: rest) = stream_loop rest.
Proof.
  intros (payload & Hl & Hj).
  rewrite (stream_loop_data _ _ _ Hl), Hj. reflexivity.
Qed.

Lemma stream_loop_other (raw : bytes) (rest : list bytes) :
  other_line raw -> stream_loop (raw :: rest) = stream_loop rest.
Proof.
  intros (decoded & Hd & Hp). cbn [Client.stream_loop]. rewrite Hd, Hp.
  destruct (str_eqb (strip decoded) data_done) eqn:E; [|reflexivity].
  apply str_eqb_eq in E. rewrite E in Hp. discriminate.
Qed.

Lemma stream_loop_frames (lines : list bytes) (texts : list str) :
  frames lines texts ->
  stream_loop lines = (map PyStr texts, StopAsyncIteration).
Proof.
  induction 1 as [|raw rest Hd|raw c lines texts Hl Hc _ IH
                  |raw lines texts Hl _ IH|raw lines texts Hl _ IH
                  |raw lines texts Hl _ IH].
  - reflexivity.
  - apply stream_loop_done; assumption.
  - rewrite (stream_loop_delta _ _ _ Hl Hc), IH. reflexivity.
  - rewrite (stream_loop_empty _ _ Hl). exact IH.
  - rewrite (stream_loop_invalid _ _ Hl). exact IH.
  - rewrite (stream_loop_other _ _ Hl). exact IH.
Qed.

End StreamLoop.

(* ================================================================= *)
(** * The streaming path *)
(* ================================================================= *)

Section Streaming.

Variable json_loads : str -> pyres pyobj.
Variable post : Request -> pyres ClientResponse.

Local Abbreviation generate_stream := (generate_stream json_loads post).
Local Abbreviation delta_line := (delta_line json_loads).
Local Abbreviation frames := (frames json_loads).

(** On a response with status 200 the generator runs the loop over the
    lines of the body. *)
Lemma generate_stream_200
  (self : GPTModel) (prompt : str) (callback : Callback)
  (request : Request) (response : ClientResponse) :
  request_of self prompt true = Ok request ->
  post request = Ok response ->
  status response = 200 ->
  generate_stream self prompt callback =
  stream_loop json_loads (iter_lines (content response)).
Proof.
  intros Hr Hp Hs. unfold Client.generate_stream.
  rewrite Hr. cbn [bind]. rewrite Hp, Hs. reflexivity.
Qed.

(** C1. A response made of N well-formed [data:] lines, each carrying a
    non-empty delta text, then the line [data: [DONE]], then any further
    lines: [generate_stream] yields the N texts, in the order of the lines,
    and ends without an error; nothing after the sentinel is looked at. *)
Theorem generate_stream_in_order
  (self : GPTModel) (prompt : str) (callback : Callback)
  (request : Request) (response : ClientResponse)
  (raws : list bytes) (texts : list str) (done : bytes) (rest : list bytes) :
  request_of self prompt true = Ok request ->
  post request = Ok response ->
  status response = 200 ->
  iter_lines (content response) = raws ++ done :: rest ->
  Forall2 (fun raw c => delta_line raw c /\ c <> []) raws texts ->
  done_line done ->
  generate_stream self prompt callback = (map PyStr texts, StopAsyncIteration)
  /\ List.length (fst (generate_stream self prompt callback))
     = List.length raws.
Proof.
  intros Hr Hp Hs Hl Hf Hd.
  assert (E : generate_stream self prompt callback
              = (map PyStr texts, StopAsyncIteration)).
  { rewrite (generate_stream_200 _ _ _ _ _ Hr Hp Hs), Hl.
    apply stream_loop_frames. clear Hl.
    induction Hf as [|raw c raws texts [Hraw Hc] _ IH]; simpl.
    - apply frames_done; assumption.
    - apply frames_delta; assumption. }
  split; [exact E|].
  rewrite E. simpl. rewrite length_map.
  symmetry. eapply Forall2_length; eassumption.
Qed.

(** C3. A [data:] line whose payload is not valid JSON is passed over:
    the generator behaves as if the line were not there, whatever comes
    before and after it. Hence, on a response whose lines up to the
    sentinel are well-formed [data:] lines, [data:] lines with invalid
    JSON and lines without the prefix, the generator ends without an error
    and has yielded one fragment per well-formed line with a non-empty
    text. *)
Theorem invalid_json_line_skipped
  (self : GPTModel) (prompt : str) (callback : Callback)
  (request : Request) (response : ClientResponse)
  (lines : list bytes) (texts : list str) :
  request_of self prompt true = Ok request ->
  post request = Ok response ->
  status response = 200 ->
  iter_lines (content response) = lines ->
  frames lines texts ->
  (forall before raw after,
      invalid_line json_loads raw ->
      stream_loop json_loads (before ++ raw :: after)
      = stream_loop json_loads (before ++ after))
  /\ generate_stream self prompt callback
     = (map PyStr texts, StopAsyncIteration)
  /\ List.length (fst (generate_stream self prompt callback))
     = List.length texts.
Proof.
  intros Hr Hp Hs Hl Hf.
  assert (E : generate_stream self prompt callback
              = (map PyStr texts, StopAsyncIteration)).
  { rewrite (generate_stream_200 _ _ _ _ _ Hr Hp Hs), Hl.
    apply stream_loop_frames; assumption. }
  split; [|split].
  - intros before raw after Hi.
    induction before as [|x before IH].
    + apply stream_loop_invalid; assumption.
    + cbn [app Client.stream_loop]. rewrite IH. reflexivity.
  - exact E.
  - rewrite E. simpl. apply length_map.
Qed.

End Streaming.

(** A line cut in two chunks gives the same outcome as the line in one
    chunk. *)
Lemma split_line_same_outcome
  (json_loads : str -> pyres pyobj)
  (post_whole post_cut : Request -> pyres ClientResponse)
  (self : GPTModel) (prompt : str) (callback : Callback)
  (request : Request) (whole cut : ClientResponse)
  (before after : list bytes) (a b : bytes) :
  request_of self prompt true = Ok request ->
  post_whole request = Ok whole ->
  post_cut request = Ok cut ->
  status whole = 200 ->
  status cut = 200 ->
  content whole = before ++ (a ++ b) :: after ->
  content cut = before ++ a :: b :: after ->
  generate_stream json_loads post_cut self prompt callback
  = generate_stream json_loads post_whole self prompt callback.
Proof.
  intros Hr Hw Hc Hsw Hsc Hcw Hcc.
  rewrite (generate_stream_200 _ _ _ _ _ _ _ Hr Hw Hsw).
  rewrite (generate_stream_200 _ _ _ _ _ _ _ Hr Hc Hsc).
  rewrite Hcw, Hcc, iter_lines_split. reflexivity.
Qed.

(** C2. A body made of logical lines, each ended by its line feed, in
    which a chunk arrives cut in two pieces [a] and [b] at any byte: the
    reader delivers exactly the logical lines, each once and in order, as
    it does when the two pieces arrive in one chunk; the generator decodes
    these whole lines, and when they are well-formed it yields exactly
    their fragments, none lost and none twice. *)
Theorem split_line_reassembled
  (json_loads : str -> pyres pyobj)
  (post : Request -> pyres ClientResponse)
  (self : GPTModel) (prompt : str) (callback : Callback)
  (request : Request) (response : ClientResponse)
  (before after : list bytes) (a b : bytes) (logical : list bytes) :
  request_of self prompt true = Ok request ->
  post request = Ok response ->
  status response = 200 ->
  content response = before ++ a :: b :: after ->
  Forall (fun l => ~ In 10 l) logical ->
  List.concat (before ++ (a ++ b) :: after)
  = List.concat (map (fun l => l ++ [10]) logical) ->
  iter_lines (content response) = map (fun l => l ++ [10]) logical
  /\ iter_lines (content response)
     = iter_lines (before ++ (a ++ b) :: after)
  /\ generate_stream json_loads post self prompt callback
     = stream_loop json_loads (map (fun l => l ++ [10]) logical)
  /\ forall texts,
      frames json_loads (map (fun l => l ++ [10]) logical) texts ->
      generate_stream json_loads post self prompt callback
      = (map PyStr texts, StopAsyncIteration).
Proof.
  intros Hr Hp Hs Hc Hl Hb.
  assert (E : iter_lines (content response)
              = map (fun l => l ++ [10]) logical).
  { rewrite Hc, <- iter_lines_split.
    apply iter_lines_of_lines; assumption. }
  assert (G : generate_stream json_loads post self prompt callback
              = stream_loop json_loads (map (fun l => l ++ [10]) logical)).
  { rewrite (generate_stream_200 _ _ _ _ _ _ _ Hr Hp Hs), E. reflexivity. }
  split; [exact E | split; [| split; [exact G|]]].
  - rewrite Hc. symmetry. apply iter_lines_split.
  - intros texts Hf. rewrite G. apply stream_loop_frames. exact Hf.
Qed.

(** ** The streaming path on the sample responses *)

Ltac evaluate := cbv; first [reflexivity | discriminate].

Ltac show_data_line :=
  eexists; split; [evaluate | split; evaluate].

Ltac show_delta_line :=
  eexists; eexists; split;
  [show_data_line
  | split; [evaluate | do 4 eexists; repeat split; evaluate]].

Ltac show_done_line := eexists; split; evaluate.

Lemma generate_stream_in_order_witness :
  generate_stream JsonText.loads (answering hello_stream)
                  sample_self sample_prompt None
  = ([PyStr (lit "Hel"); PyStr (lit "lo")], StopAsyncIteration)
  /\ List.length
       (fst (generate_stream JsonText.loads (answering hello_stream)
                             sample_self sample_prompt None)) = 2%nat.
Proof.
  eapply (generate_stream_in_order
            JsonText.loads (answering hello_stream)
            sample_self sample_prompt None _ hello_stream
            [hel_line; lo_line] [lit "Hel"; lit "lo"]
            done_bytes [late_line]).
  - reflexivity.
  - reflexivity.
  - reflexivity.
  - evaluate.
  - repeat (apply Forall2_cons || apply Forall2_nil);
      (split; [show_delta_line | discriminate]).
  - show_done_line.
Defined.

Lemma no_line_feed_check (l : bytes) :
  forallb (fun b => negb (b =? 10)) l = true -> ~ In 10 l.
Proof.
  intros H Hin. rewrite forallb_forall in H.
  specialize (H 10 Hin). discriminate.
Qed.

Ltac show_hello_cut n :=
  destruct (split_line_reassembled
              JsonText.loads (answering (hello_stream_cut n))
              sample_self sample_prompt None _ (hello_stream_cut n)
              [hel_line] [done_bytes; late_line]
              (firstn n lo_line) (skipn n lo_line) hello_logical
              eq_refl eq_refl eq_refl eq_refl) as (H1 & _ & _ & H4);
  [ repeat (apply Forall_cons; [apply no_line_feed_check; reflexivity|]);
    apply Forall_nil
  | vm_compute; reflexivity
  | split;
    [ exact H1
    | apply (H4 [lit "Hel"; lit "lo"]);
      apply frames_delta; [show_delta_line | discriminate |];
      apply frames_delta; [show_delta_line | discriminate |];
      apply frames_done; show_done_line ] ].

Lemma split_line_reassembled_witness :
  (iter_lines (content (hello_stream_cut 3))
   = [hel_line; lo_line; done_bytes; late_line]
   /\ generate_stream JsonText.loads (answering (hello_stream_cut 3))
                      sample_self sample_prompt None
      = ([PyStr (lit "Hel"); PyStr (lit "lo")], StopAsyncIteration))
  /\ (iter_lines (content (hello_stream_cut 30))
      = [hel_line; lo_line; done_bytes; late_line]
      /\ generate_stream JsonText.loads (answering (hello_stream_cut 30))
                         sample_self sample_prompt None
         = ([PyStr (lit "Hel"); PyStr (lit "lo")], StopAsyncIteration)).
Proof.
  split.
  - show_hello_cut 3%nat.
  - show_hello_cut 30%nat.
Defined.

Lemma invalid_json_line_skipped_witness :
  generate_stream JsonText.loads (answering noisy_stream)
                  sample_self sample_prompt None
  = ([PyStr (lit "Hel"); PyStr (lit "lo")], StopAsyncIteration).
Proof.
  eapply (invalid_json_line_skipped
            JsonText.loads (answering noisy_stream)
            sample_self sample_prompt None _ noisy_stream
            [hel_line; broken_line; role_line; blank_line; lo_line;
             done_bytes]
            [lit "Hel"; lit "lo"]).
  - reflexivity.
  - reflexivity.
  - reflexivity.
  - evaluate.
  - apply frames_delta; [show_delta_line | discriminate |].
    apply frames_invalid; [eexists; split; [show_data_line | evaluate] |].
    apply frames_empty; [show_delta_line |].
    apply frames_other; [eexists; split; evaluate |].
    apply frames_delta; [show_delta_line | discriminate |].
    apply frames_done. show_done_line.
Defined.

(** ** Chunk objects without the expected fields *)

Section MissingFields.

Variable json_loads : str -> pyres pyobj.

(** An absent [choices], [delta] or [content] key stands for the empty
    text. *)
Lemma delta_content_absent_key (items : list (str * pyobj)) :
  lookup k_choices items = None
  \/ (exists choice others,
         lookup k_choices items = Some (PyList (PyDict choice :: others))
         /\ (lookup k_delta choice = None
             \/ exists delta,
                 lookup k_delta choice = Some (PyDict delta)
                 /\ lookup k_content delta = None)) ->
  delta_content (PyDict items) = Ok (PyStr []).
Proof.
  unfold delta_content. simpl.
  intros [H | (choice & others & H & [Hd | (delta & Hd & Hc)])];
    rewrite H; simpl; try reflexivity; rewrite Hd; simpl; try reflexivity.
  rewrite Hc. reflexivity.
Qed.

(** Whatever the loop yields is true as a condition: the empty string is
    never yielded. *)
Lemma stream_loop_yields_truthy (lines : list bytes) :
  Forall (fun v => truthy v = true) (fst (stream_loop json_loads lines)).
Proof.
  induction lines as [|raw lines IH]; [constructor|].
  cbn [stream_loop].
  destruct (decode_utf8 raw) as [decoded|e]; [|constructor].
  destruct (str_eqb (strip decoded) data_done); [constructor|].
  destruct (startswith (strip decoded) data_prefix); [|exact IH].
  destruct (bind _ _) as [content|e].
  - destruct (truthy content) eqn:E; [|exact IH].
    destruct (stream_loop json_loads lines) as [ys e]. cbn [fst] in *.
    constructor; assumption.
  - destruct e; try constructor. exact IH.
Qed.

(** A chunk object whose list of choices is empty makes the subscript
    [[0]] raise [IndexError], which ends the generator. *)
Lemma stream_loop_empty_choices
  (raw : bytes) (payload : str) (items : list (str * pyobj))
  (rest : list bytes) :
  data_line raw payload ->
  json_loads payload = Ok (PyDict items) ->
  lookup k_choices items = Some (PyList []) ->
  stream_loop json_loads (raw :: rest) = ([], Raised IndexError).
Proof.
  intros Hl Hj Hc. rewrite (stream_loop_data _ _ _ _ Hl), Hj.
  unfold delta_content. simpl. rewrite Hc. reflexivity.
Qed.

End MissingFields.

(** The chunk objects of the sample in which a key is absent are passed
    over. *)
Lemma absent_keys_passed_over :
  generate_stream JsonText.loads (answering sparse_stream)
                  sample_self sample_prompt None
  = ([PyStr (lit "Hel"); PyStr (lit "lo")], StopAsyncIteration).
Proof. vm_compute. reflexivity. Qed.

(** C4. The line [data: {"choices": []}] is valid JSON without a delta.
    The generator does not pass over it: it ends with [IndexError] after
    the fragments yielded so far, and the lines after it are lost. *)
Theorem empty_choices_frame_raises :
  generate_stream JsonText.loads (answering empty_choices_stream)
                  sample_self sample_prompt None
  = ([PyStr (lit "Hel")], Raised IndexError).
Proof. vm_compute. reflexivity. Qed.

(* ================================================================= *)
(** * Errors *)
(* ================================================================= *)

(** ** The message of a status error determines the status and the body *)







(** ** The two methods on a response *)

Section Responses.

Variable json_loads : str -> pyres pyobj.
Variable post : Request -> pyres ClientResponse.

Local Abbreviation generate := (generate post).
Local Abbreviation generate_stream := (generate_stream json_loads post).
Local Abbreviation fails_with := (fails_with json_loads post).

Lemma generate_response
  (self : GPTModel) (prompt : str) (callback : Callback)
  (request : Request) (response : ClientResponse) :
  request_of self prompt false = Ok request ->
  post request = Ok response ->
  generate self prompt callback =
  if negb (status response =? 200) then
    error_text <- text response ;;
    Raise (Exception (error_message (status response) error_text))
  else
    result <- json response ;;
    message_content result.
Proof.
  intros Hr Hp. unfold Client.generate. rewrite Hr. cbn [bind].
  rewrite Hp. reflexivity.
Qed.

Lemma fails_with_status
  (stream : bool) (self : GPTModel) (prompt : str) (callback : Callback)
  (request : Request) (response : ClientResponse) (body : str) :
  request_of self prompt stream = Ok request ->
  post request = Ok response ->
  status response <> 200 ->
  text response = Ok body ->
  fails_with stream self prompt callback
             (Exception (error_message (status response) body)).
Proof.
  intros Hr Hp Hs Ht. apply Z.eqb_neq in Hs.
  destruct stream; unfold Vocabulary.fails_with.
  - unfold Client.generate_stream. rewrite Hr. cbn [bind].
    rewrite Hp, Hs, Ht. reflexivity.
  - rewrite (generate_response _ _ _ _ _ Hr Hp), Hs, Ht. reflexivity.
Qed.

Lemma fails_with_transport
  (stream : bool) (self : GPTModel) (prompt : str) (callback : Callback)
  (request : Request) (e : exn) :
  request_of self prompt stream = Ok request ->
  post request = Raise e ->
  fails_with stream self prompt callback e.
Proof.
  intros Hr Hp. destruct stream; unfold Vocabulary.fails_with.
  - unfold Client.generate_stream. rewrite Hr. cbn [bind].
    rewrite Hp. reflexivity.
  - unfold Client.generate. rewrite Hr. cbn [bind].
    rewrite Hp. reflexivity.
Qed.

Lemma fails_with_functional
  (stream : bool) (self : GPTModel) (prompt : str) (callback : Callback)
  (e e' : exn) :
  fails_with stream self prompt callback e ->
  fails_with stream self prompt callback e' ->
  e = e'.
Proof.
  destruct stream; unfold Vocabulary.fails_with; intros H H';
    rewrite H in H'; inversion H'; reflexivity.
Qed.


End Responses.


(** ** The constructor *)

(** A client that has been constructed holds the configured key, which is
    not empty. *)
Lemma GPTModel_init_keeps_key
  (config_manager : ConfigManager) (self : GPTModel) :
  GPTModel_init config_manager = Ok self ->
  get_api_key config_manager provider_gpt = Some (api_key self)
  /\ api_key self <> [].
Proof.
  unfold GPTModel_init.
  destruct (get_api_key config_manager provider_gpt) as [[|c key]|];
    simpl; try discriminate.
  intros H. inversion H. simpl. split; [reflexivity | discriminate].
Qed.

(** C6. With a key that is missing or empty the constructor raises
    [ValueError], the error of a missing key, and no client comes to
    exist on which a method could be called. The constructor takes no
    network: it cannot start an exchange. *)
Theorem missing_api_key_rejected (config_manager : ConfigManager) :
  get_api_key config_manager provider_gpt = None
  \/ get_api_key config_manager provider_gpt = Some [] ->
  GPTModel_init config_manager = Raise (ValueError key_not_configured)
  /\ provider_error (ValueError key_not_configured)
     = Some ConfigurationError
  /\ forall self, GPTModel_init config_manager <> Ok self.
Proof.
  intros H.
  assert (E : GPTModel_init config_manager
              = Raise (ValueError key_not_configured)).
  { unfold GPTModel_init. destruct H as [-> | ->]; reflexivity. }
  split; [exact E | split; [reflexivity|]].
  intros self. rewrite E. discriminate.
Qed.

Lemma missing_api_key_rejected_witness :
  GPTModel_init keyless_config = Raise (ValueError key_not_configured)
  /\ GPTModel_init empty_key_config = Raise (ValueError key_not_configured).
Proof.
  split.
  - refine (proj1 (missing_api_key_rejected keyless_config _)).
    left. reflexivity.
  - refine (proj1 (missing_api_key_rejected empty_key_config _)).
    right. reflexivity.
Defined.

(** ** The envelope of the buffered path *)

Ltac raised := eexists; split; reflexivity.

(** [generate] returns the content of the message of the first completion
    when the envelope has it, and otherwise ends with the exception of the
    first subscript that fails. *)
Lemma message_content_spec (envelope : pyobj) :
  match envelope_content envelope with
  | Some v => message_content envelope = Ok v
  | None =>
    exists e, message_content envelope = Raise e /\ lookup_error e = true
  end.
Proof.
  unfold message_content, envelope_content.
  destruct envelope as [| | | | | |items]; cbn; try raised.
  destruct (lookup k_choices items) as [choices|]; cbn; [|raised].
  destruct choices as [| | | |s|l|d]; cbn; try raised.
  - destruct s; cbn; raised.
  - destruct l as [|choice l]; cbn; [raised|].
    destruct choice as [| | | |s| |choice]; cbn; try raised.
    destruct (lookup k_message choice) as [message|]; cbn; [|raised].
    destruct message as [| | | | | |message]; cbn; try raised.
    destruct (lookup k_content message); cbn; [reflexivity | raised].
Qed.

Lemma lookup_error_names_no_kind (e : exn) :
  lookup_error e = true -> provider_error e = None.
Proof. destruct e; simpl; intros H; try discriminate; reflexivity. Qed.

(** The exception with which the subscripts end is the one that
    [envelope_fault] reads off the envelope. *)
Lemma message_content_fault (envelope : pyobj) :
  match envelope_fault envelope with
  | Some e => message_content envelope = Raise e
  | None => exists v, message_content envelope = Ok v
  end.
Proof.
  unfold message_content, envelope_fault.
  destruct envelope as [| | | | | |items]; cbn; try reflexivity.
  destruct (lookup k_choices items) as [choices|]; cbn; [|reflexivity].
  destruct choices as [| | | |s|l|d]; cbn; try reflexivity.
  - destruct s; cbn; reflexivity.
  - destruct l as [|choice l]; cbn; [reflexivity|].
    destruct choice as [| | | |s| |choice]; cbn; try reflexivity.
    destruct (lookup k_message choice) as [message|]; cbn; [|reflexivity].
    destruct message as [| | | | | |message]; cbn; try reflexivity.
    destruct (lookup k_content message) as [v|]; cbn;
      [exists v; reflexivity | reflexivity].
Qed.

Section Envelope.

Variable post : Request -> pyres ClientResponse.

Local Abbreviation generate := (generate post).

(** C7, as amended. A response with status 200 whose envelope lacks the
    expected fields: [generate] returns nothing and ends with the
    exception, unwrapped, of the first subscript that fails, which is the
    one [envelope_fault] reads off the envelope: [KeyError] for an absent
    key (and for a [choices] that is a dictionary), [IndexError] for an
    empty [choices], [TypeError] for a value of another type than the one
    subscripted. The class of this exception names no kind of provider
    error. *)
Theorem envelope_without_fields_raises_lookup_error
  (self : GPTModel) (prompt : str) (callback : Callback)
  (request : Request) (response : ClientResponse) (envelope : pyobj) :
  request_of self prompt false = Ok request ->
  post request = Ok response ->
  status response = 200 ->
  json response = Ok envelope ->
  envelope_content envelope = None ->
  exists e,
    envelope_fault envelope = Some e
    /\ generate self prompt callback = Raise e
    /\ lookup_error e = true
    /\ provider_error e = None.
Proof.
  intros Hr Hp Hs Hj Hc.
  rewrite (generate_response _ _ _ _ _ _ Hr Hp), Hs, Hj. cbn.
  pose proof (message_content_spec envelope) as H. rewrite Hc in H.
  destruct H as (e & He & Hl).
  pose proof (message_content_fault envelope) as F.
  destruct (envelope_fault envelope) as [e'|].
  - rewrite He in F. inversion F. subst e'. exists e.
    split; [reflexivity | split; [exact He | split; [exact Hl|]]].
    apply lookup_error_names_no_kind; exact Hl.
  - destruct F as (v & Hv). rewrite He in Hv. discriminate.
Qed.

(** C9. A response with status 200 whose envelope has the expected
    fields: [generate] returns the content of the message of the first
    completion, whatever the prompt. And when the configuration names no
    model, the client made from it asks for the default model. *)
Theorem generate_returns_message_content
  (config_manager : ConfigManager)
  (self : GPTModel) (prompt : str) (callback : Callback)
  (request : Request) (response : ClientResponse)
  (envelope : pyobj) (answer : str) :
  GPTModel_init config_manager = Ok self ->
  request_of self prompt false = Ok request ->
  post request = Ok response ->
  status response = 200 ->
  json response = Ok envelope ->
  envelope_content envelope = Some (PyStr answer) ->
  generate self prompt callback = Ok (PyStr answer)
  /\ (get_model_name config_manager provider_gpt = None
      \/ get_model_name config_manager provider_gpt = Some [] ->
      model_name self = default_model
      /\ post_json request
         = PyDict [(k_model, PyStr default_model);
                   (k_messages,
                    PyList [PyDict [(k_role, PyStr k_user);
                                    (k_content, PyStr prompt)]]);
                   (k_stream, PyBool false)]).
Proof.
  intros Hi Hr Hp Hs Hj Hc. split.
  - rewrite (generate_response _ _ _ _ _ _ Hr Hp), Hs, Hj. cbn.
    pose proof (message_content_spec envelope) as H. rewrite Hc in H.
    exact H.
  - intros Hm.
    assert (E : model_name self = default_model).
    { unfold GPTModel_init in Hi.
      destruct (negb (truthy_opt (get_api_key config_manager provider_gpt)));
        [discriminate|].
      inversion Hi. destruct Hm as [-> | ->]; reflexivity. }
    split; [exact E|].
    unfold request_of in Hr. destruct (proxy_of self); [|discriminate].
    inversion Hr. unfold data_of. rewrite E. reflexivity.
Qed.

End Envelope.

Ltac show_fault response :=
  match goal with
  | |- generate _ _ _ _ = Raise ?x =>
    destruct (envelope_without_fields_raises_lookup_error
                (answering response) sample_self sample_prompt None
                _ response _ eq_refl eq_refl eq_refl eq_refl eq_refl)
      as (e & Hf & Hg & _);
    assert (E : e = x)
      by (cbv in Hf; injection Hf as Hf; rewrite <- Hf; reflexivity);
    rewrite <- E; exact Hg
  end.

Lemma envelope_without_fields_raises_lookup_error_witness :
  generate (answering bare_envelope) sample_self sample_prompt None
  = Raise (KeyError (PyStr k_choices))
  /\ generate (answering dict_choices_envelope) sample_self sample_prompt None
     = Raise (KeyError (PyInt 0))
  /\ generate (answering no_choice_envelope) sample_self sample_prompt None
     = Raise IndexError
  /\ generate (answering text_message_envelope) sample_self sample_prompt None
     = Raise TypeError
  /\ generate (answering no_content_envelope) sample_self sample_prompt None
     = Raise (KeyError (PyStr k_content)).
Proof.
  split; [show_fault bare_envelope|].
  split; [show_fault dict_choices_envelope|].
  split; [show_fault no_choice_envelope|].
  split; [show_fault text_message_envelope|].
  show_fault no_content_envelope.
Defined.

(** C7, as stated, fails on the envelope [{}]: [generate] ends with the
    [KeyError] of the subscript [["choices"]], and no error of the kind of
    decoding errors is raised. *)
Lemma bare_envelope_raises_KeyError :
  generate (answering bare_envelope) sample_self sample_prompt None
  = Raise (KeyError (PyStr k_choices))
  /\ ~ (exists e,
           generate (answering bare_envelope) sample_self sample_prompt None
           = Raise e
           /\ provider_error e = Some ProtocolDecodeError).
Proof.
  split; [reflexivity|].
  intros (e & He & Hk).
  assert (E : e = KeyError (PyStr k_choices)) by (inversion He; reflexivity).
  rewrite E in Hk. discriminate.
Qed.

Lemma generate_returns_message_content_witness :
  generate (answering hello_envelope) sample_self sample_prompt None
  = Ok (PyStr (lit "Hello!"))
  /\ model_name sample_self = default_model.
Proof.
  destruct (generate_returns_message_content
              (answering hello_envelope) sample_config
              sample_self sample_prompt None
              _ hello_envelope _ (lit "Hello!")
              eq_refl eq_refl eq_refl eq_refl eq_refl eq_refl) as [H1 H2].
  split; [exact H1|].
  apply H2. left. reflexivity.
Defined.

(** ** The errors of the four kinds of situation *)

Lemma lookup_error_decode_failure (e : exn) :
  lookup_error e = true -> decode_failure e = true.
Proof. destruct e; simpl; intros H; try discriminate; reflexivity. Qed.

Lemma message_content_error (envelope : pyobj) (e : exn) :
  message_content envelope = Raise e -> lookup_error e = true.
Proof.
  intros H. pose proof (message_content_spec envelope) as S.
  destruct (envelope_content envelope).
  - rewrite H in S. discriminate.
  - destruct S as (e' & He & Hl). rewrite H in He.
    inversion He. exact Hl.
Qed.

Lemma get_error (v : pyobj) (k : str) (default : pyobj) (e : exn) :
  get v k default = Raise e -> e = AttributeError.
Proof.
  destruct v; simpl; try (intros H; inversion H; reflexivity).
  destruct (lookup k items); discriminate.
Qed.

Lemma getitem_index_error (v : pyobj) (i : Z) (e : exn) :
  getitem_index v i = Raise e -> lookup_error e = true.
Proof.
  destruct v; simpl; try (intros H; inversion H; reflexivity).
  - destruct (position (List.length s) i) as [n|];
      [destruct (nth_error s n)|]; intros H; inversion H; reflexivity.
  - destruct (position (List.length l) i) as [n|];
      [destruct (nth_error l n)|]; intros H; inversion H; reflexivity.
Qed.

Lemma delta_content_error (data : pyobj) (e : exn) :
  delta_content data = Raise e -> decode_failure e = true.
Proof.
  unfold delta_content.
  destruct (get data k_choices (PyList [PyDict []])) as [choices|e1] eqn:E1;
    cbn [bind].
  - destruct (getitem_index choices 0) as [choice|e2] eqn:E2; cbn [bind].
    + destruct (get choice k_delta (PyDict [])) as [delta|e3] eqn:E3;
        cbn [bind].
      * intros H. apply get_error in H. rewrite H. reflexivity.
      * intros H. inversion H. subst. apply get_error in E3.
        rewrite E3. reflexivity.
    + intros H. inversion H. subst. apply getitem_index_error in E2.
      apply lookup_error_decode_failure. exact E2.
  - intros H. inversion H. subst. apply get_error in E1.
    rewrite E1. reflexivity.
Qed.

Section LoopErrors.

Variable json_loads : str -> pyres pyobj.

Hypothesis json_loads_raises :
  forall s e, json_loads s = Raise e -> e = JSONDecodeError.

(** Whatever ends the loop with an error is the error of a line that
    cannot be decoded. *)
Lemma stream_loop_error (lines : list bytes) (e : exn) :
  snd (stream_loop json_loads lines) = Raised e -> decode_failure e = true.
Proof.
  induction lines as [|raw lines IH]; [discriminate|].
  cbn [stream_loop].
  destruct (decode_utf8 raw) as [decoded|e0] eqn:Ed.
  - destruct (str_eqb (strip decoded) data_done); [discriminate|].
    destruct (startswith (strip decoded) data_prefix); [|exact IH].
    destruct (json_loads (skipn 6 (strip decoded))) as [data|e1] eqn:Ej;
      cbn [bind].
    + destruct (delta_content data) as [content|e2] eqn:Ec.
      * destruct (truthy content); [|exact IH].
        destruct (stream_loop json_loads lines) as [ys e']. exact IH.
      * apply delta_content_error in Ec.
        destruct e2; try discriminate; cbn [snd];
          first [exact IH | intros H; inversion H; reflexivity].
    + apply json_loads_raises in Ej. rewrite Ej. exact IH.
  - unfold decode_utf8 in Ed. destruct (utf8_points raw); [discriminate|].
    inversion Ed. cbn [snd]. intros H. inversion H. reflexivity.
Qed.

End LoopErrors.

(** The class of the exception raised in each kind of situation. *)
Lemma occurs_class
  (json_loads : str -> pyres pyobj)
  (post : Request -> pyres ClientResponse) (kind : ErrorKind) (e : exn) :
  occurs json_loads post kind e ->
  match kind with
  | ConfigurationError => exists msg, e = ValueError msg
  | TransportError => transport_failure e = true
  | HttpStatusError => exists msg, e = Exception msg
  | ProtocolDecodeError => decode_failure e = true
  end.
Proof.
  intros H.
  destruct H as [cm e Hi
                |stream self prompt callback request e0 e Hr Hp Ht Hf
                |stream self prompt callback request response body e
                   Hr Hp Hs Ht Hf
                |self prompt callback request response e0 e
                   Hr Hp Hs Hj Hn Hg
                |self prompt callback request response envelope e
                   Hr Hp Hs Hj Hg
                |self prompt callback request response e Hc Hr Hp Hs Hg].
  - unfold GPTModel_init in Hi.
    destruct (negb (truthy_opt (get_api_key cm provider_gpt)));
      [|discriminate].
    inversion Hi. eexists; reflexivity.
  - rewrite (fails_with_functional _ _ _ _ _ _ _ _ Hf
               (fails_with_transport _ _ _ _ _ _ _ _ Hr Hp)).
    exact Ht.
  - eexists.
    eapply fails_with_functional; [exact Hf|].
    eapply fails_with_status; eassumption.
  - rewrite (generate_response _ _ _ _ _ _ Hr Hp), Hs, Hj in Hg.
    inversion Hg. subst. destruct e; try discriminate; reflexivity.
  - rewrite (generate_response _ _ _ _ _ _ Hr Hp), Hs, Hj in Hg.
    cbn in Hg. apply message_content_error in Hg.
    apply lookup_error_decode_failure. exact Hg.
  - rewrite (generate_stream_200 _ _ _ _ _ _ _ Hr Hp Hs) in Hg.
    eapply stream_loop_error; eassumption.
Qed.

(** C8, as amended. In the runs that [occurs] describes (the proxy
    argument is evaluated without an error, a failed exchange is reported
    with a connection or timeout error of aiohttp, the body of a response
    with a status other than 200 is read as text, and [json.loads] raises
    nothing but [JSONDecodeError]), errors raised in situations of two
    different kinds are instances of different exception classes. *)
Theorem error_kinds_distinguishable
  (json_loads1 json_loads2 : str -> pyres pyobj)
  (post1 post2 : Request -> pyres ClientResponse)
  (kind1 kind2 : ErrorKind) (e1 e2 : exn) :
  occurs json_loads1 post1 kind1 e1 ->
  occurs json_loads2 post2 kind2 e2 ->
  kind1 <> kind2 ->
  same_class e1 e2 = false.
Proof.
  intros H1 H2 Hk.
  apply occurs_class in H1. apply occurs_class in H2.
  destruct kind1, kind2; try contradiction;
    repeat match goal with
           | H : exists _, _ |- _ => destruct H as [? ->]
           end;
    repeat match goal with
           | e : exn |- _ => destruct e; try discriminate
           end;
    reflexivity.
Qed.

(** C8, as stated, fails: two kinds of situation can end with the same
    exception. A response with status 500 whose body cannot be decoded
    and a response with status 200 whose line cannot be decoded both end
    [generate_stream] with [UnicodeDecodeError]; proxy settings without
    [https] and an envelope without [choices] both end [generate] with a
    [KeyError]. *)
Lemma error_kinds_collide :
  failure_kind (Ok unreadable_500) = HttpStatusError
  /\ failure_kind (Ok latin1_stream) = ProtocolDecodeError
  /\ generate_stream JsonText.loads (answering unreadable_500)
                     sample_self sample_prompt None
     = ([], Raised UnicodeDecodeError)
  /\ generate_stream JsonText.loads (answering latin1_stream)
                     sample_self sample_prompt None
     = ([], Raised UnicodeDecodeError)
  /\ generate (answering hello_envelope) http_only_self sample_prompt None
     = Raise (KeyError (PyStr k_https))
  /\ generate (answering bare_envelope) sample_self sample_prompt None
     = Raise (KeyError (PyStr k_choices))
  /\ same_class (KeyError (PyStr k_https)) (KeyError (PyStr k_choices))
     = true.
Proof. repeat split; vm_compute; reflexivity. Qed.

(** C10. The callback is accepted and never used: the outcome of each
    method is the same whatever callback is passed, on every network and
    for every behaviour of [json.loads]. *)
Theorem callback_ignored
  (json_loads : str -> pyres pyobj)
  (post : Request -> pyres ClientResponse)
  (self : GPTModel) (prompt : str) (callback1 callback2 : Callback) :
  generate post self prompt callback1 = generate post self prompt callback2
  /\ generate_stream json_loads post self prompt callback1
     = generate_stream json_loads post self prompt callback2.
Proof. split; reflexivity. Qed.

(** ** The four kinds of situation on the sample networks *)

Lemma JsonText_loads_raises (s : str) (e : exn) :
  JsonText.loads s = Raise e -> e = JSONDecodeError.
Proof.
  unfold JsonText.loads.
  destruct (JsonText.parse_value _ s) as [[v r]|];
    [destruct (is_nil (JsonText.skip_ws r))|];
    intros H; inversion H; reflexivity.
Qed.

Lemma error_kinds_distinguishable_witness :
  same_class (ValueError key_not_configured)
             (Exception (error_message 429
                (JsonText.text
                   "{'error': {'message': 'Rate limit reached'}}")))
  = false
  /\ same_class (ClientConnectionError (lit "Cannot connect to host"))
                (KeyError (PyStr k_choices)) = false
  /\ same_class (Exception (error_message 429
                   (JsonText.text
                      "{'error': {'message': 'Rate limit reached'}}")))
                IndexError = false.
Proof.
  split; [|split].
  - apply (error_kinds_distinguishable
             JsonText.loads JsonText.loads
             unreachable (answering rate_limited)
             ConfigurationError HttpStatusError).
    + apply occurs_configuration with (config_manager := keyless_config).
      reflexivity.
    + eapply occurs_status with (stream := false) (self := sample_self)
                                (prompt := sample_prompt) (callback := None);
        try reflexivity; discriminate.
    + discriminate.
  - apply (error_kinds_distinguishable
             JsonText.loads JsonText.loads
             unreachable (answering bare_envelope)
             TransportError ProtocolDecodeError).
    + eapply occurs_transport with (stream := true) (self := sample_self)
                                   (prompt := sample_prompt) (callback := None);
        reflexivity.
    + eapply occurs_decode_envelope with (self := sample_self)
                                         (prompt := sample_prompt)
                                         (callback := None);
        reflexivity.
    + discriminate.
  - apply (error_kinds_distinguishable
             JsonText.loads JsonText.loads
             (answering rate_limited) (answering empty_choices_stream)
             HttpStatusError ProtocolDecodeError).
    + eapply occurs_status with (stream := true) (self := sample_self)
                                (prompt := sample_prompt) (callback := None);
        try reflexivity; discriminate.
    + eapply occurs_decode_line with (self := sample_self)
                                     (prompt := sample_prompt)
                                     (callback := None);
        try reflexivity; try apply JsonText_loads_raises.
    + discriminate.
Defined.

(* ================================================================= *)
(** * More on the streaming path *)
(* ================================================================= *)

Section MoreStreaming.

Variable json_loads : str -> pyres pyobj.

Local Abbreviation stream_loop := (stream_loop json_loads).

Lemma stream_loop_cons_congr (raw : bytes) (l1 l2 : list bytes) :
  stream_loop l1 = stream_loop l2 ->
  stream_loop (raw :: l1) = stream_loop (raw :: l2).
Proof. intros H. cbn [Client.stream_loop]. rewrite H. reflexivity. Qed.

Lemma stream_loop_app_congr (before l1 l2 : list bytes) :
  stream_loop l1 = stream_loop l2 ->
  stream_loop (before ++ l1) = stream_loop (before ++ l2).
Proof.
  intros H. induction before as [|raw before IH]; [exact H|].
  cbn [app]. apply stream_loop_cons_congr. exact IH.
Qed.

Lemma stream_loop_sentinel (lines rest : list bytes) (done : bytes) :
  done_line done ->
  stream_loop (lines ++ done :: rest) = stream_loop lines.
Proof.
  intros Hd. rewrite <- (app_nil_r lines) at 2.
  apply stream_loop_app_congr. apply stream_loop_done. exact Hd.
Qed.

Lemma stream_loop_passed
  (lines rest : list bytes) (texts : list str) :
  passed json_loads lines texts ->
  stream_loop (lines ++ rest) =
  (map PyStr texts ++ fst (stream_loop rest), snd (stream_loop rest)).
Proof.
  induction 1 as [|raw c lines texts Hl Hc _ IH
                  |raw lines texts Hl _ IH|raw lines texts Hl _ IH
                  |raw lines texts Hl _ IH]; cbn [app].
  - destruct (stream_loop rest); reflexivity.
  - rewrite (stream_loop_delta _ _ _ _ Hl Hc), IH. reflexivity.
  - rewrite (stream_loop_empty _ _ _ Hl). exact IH.
  - rewrite (stream_loop_invalid _ _ _ Hl). exact IH.
  - rewrite (stream_loop_other _ _ _ Hl). exact IH.
Qed.

End MoreStreaming.

(** X1. The sentinel stands for the end of the body: a response whose
    lines are those of another response, then [data: [DONE]], then
    anything, gives the same fragments and the same ending. A body that
    ends without a sentinel is no error. *)
Theorem sentinel_is_end_of_body
  (json_loads : str -> pyres pyobj)
  (post_with post_without : Request -> pyres ClientResponse)
  (self : GPTModel) (prompt : str) (callback : Callback)
  (request : Request) (with_done without : ClientResponse)
  (done : bytes) (rest : list bytes) :
  request_of self prompt true = Ok request ->
  post_with request = Ok with_done ->
  post_without request = Ok without ->
  status with_done = 200 ->
  status without = 200 ->
  iter_lines (content with_done)
  = iter_lines (content without) ++ done :: rest ->
  done_line done ->
  generate_stream json_loads post_with self prompt callback
  = generate_stream json_loads post_without self prompt callback.
Proof.
  intros Hr Hw Ho Hsw Hso Hl Hd.
  rewrite (generate_stream_200 _ _ _ _ _ _ _ Hr Hw Hsw).
  rewrite (generate_stream_200 _ _ _ _ _ _ _ Hr Ho Hso).
  rewrite Hl. apply stream_loop_sentinel. exact Hd.
Qed.

Lemma sentinel_is_end_of_body_witness :
  generate_stream JsonText.loads (answering hello_stream)
                  sample_self sample_prompt None
  = generate_stream JsonText.loads (answering unterminated_stream)
                    sample_self sample_prompt None.
Proof.
  apply (sentinel_is_end_of_body
           JsonText.loads (answering hello_stream)
           (answering unterminated_stream)
           sample_self sample_prompt None _
           hello_stream unterminated_stream done_bytes [late_line]
           eq_refl eq_refl eq_refl eq_refl eq_refl).
  - evaluate.
  - show_done_line.
Defined.

(** X2. A line without the prefix [data: ] is ignored, wherever it
    stands: a blank line, a comment, and also a [data:] line that has no
    space after the colon. *)
Theorem unprefixed_line_ignored
  (json_loads : str -> pyres pyobj)
  (post_with post_without : Request -> pyres ClientResponse)
  (self : GPTModel) (prompt : str) (callback : Callback)
  (request : Request) (with_line without : ClientResponse)
  (before after : list bytes) (raw : bytes) :
  request_of self prompt true = Ok request ->
  post_with request = Ok with_line ->
  post_without request = Ok without ->
  status with_line = 200 ->
  status without = 200 ->
  iter_lines (content with_line) = before ++ raw :: after ->
  iter_lines (content without) = before ++ after ->
  other_line raw ->
  generate_stream json_loads post_with self prompt callback
  = generate_stream json_loads post_without self prompt callback.
Proof.
  intros Hr Hw Ho Hsw Hso Hlw Hlo Hraw.
  rewrite (generate_stream_200 _ _ _ _ _ _ _ Hr Hw Hsw).
  rewrite (generate_stream_200 _ _ _ _ _ _ _ Hr Ho Hso).
  rewrite Hlw, Hlo. apply stream_loop_app_congr.
  apply stream_loop_other. exact Hraw.
Qed.

Lemma unprefixed_line_ignored_witness :
  generate_stream JsonText.loads
                  (answering (streamed [hel_line; tight_line; lo_line]))
                  sample_self sample_prompt None
  = generate_stream JsonText.loads (answering unterminated_stream)
                    sample_self sample_prompt None
  /\ generate_stream JsonText.loads
                     (answering (streamed [hel_line; comment_line; lo_line]))
                     sample_self sample_prompt None
     = generate_stream JsonText.loads (answering unterminated_stream)
                       sample_self sample_prompt None.
Proof.
  split.
  - apply (unprefixed_line_ignored
             JsonText.loads
             (answering (streamed [hel_line; tight_line; lo_line]))
             (answering unterminated_stream)
             sample_self sample_prompt None _
             (streamed [hel_line; tight_line; lo_line]) unterminated_stream
             [hel_line] [lo_line] tight_line
             eq_refl eq_refl eq_refl eq_refl eq_refl).
    + evaluate.
    + evaluate.
    + eexists; split; evaluate.
  - apply (unprefixed_line_ignored
             JsonText.loads
             (answering (streamed [hel_line; comment_line; lo_line]))
             (answering unterminated_stream)
             sample_self sample_prompt None _
             (streamed [hel_line; comment_line; lo_line]) unterminated_stream
             [hel_line] [lo_line] comment_line
             eq_refl eq_refl eq_refl eq_refl eq_refl).
    + evaluate.
    + evaluate.
    + eexists; split; evaluate.
Defined.

(** X3. Whatever the network answers and whatever [json.loads] does,
    every object that [generate_stream] yields is true as a condition: it
    never yields an empty string, [None], zero, [False] or an empty list
    or dictionary. *)
Theorem generate_stream_yields_no_empty
  (json_loads : str -> pyres pyobj)
  (post : Request -> pyres ClientResponse)
  (self : GPTModel) (prompt : str) (callback : Callback) :
  Forall (fun v => truthy v = true /\ v <> PyStr [] /\ v <> PyNone)
         (fst (generate_stream json_loads post self prompt callback)).
Proof.
  assert (H : Forall (fun v => truthy v = true)
                (fst (generate_stream json_loads post self prompt callback))).
  { unfold generate_stream.
    destruct (bind _ _) as [response|e]; [|constructor].
    destruct (negb (status response =? 200)).
    - destruct (text response); constructor.
    - apply stream_loop_yields_truthy. }
  eapply Forall_impl; [|exact H].
  intros v Hv. split; [exact Hv|].
  split; intros E; rewrite E in Hv; discriminate.
Qed.

Section MalformedLines.

Variable json_loads : str -> pyres pyobj.
Variable post : Request -> pyres ClientResponse.

Local Abbreviation generate_stream := (generate_stream json_loads post).

(** X4. A line that is not valid UTF-8 ends the generator with
    [UnicodeDecodeError]: the fragments of the lines before it have been
    yielded, the lines after it are not read. *)
Theorem undecodable_line_ends_stream
  (self : GPTModel) (prompt : str) (callback : Callback)
  (request : Request) (response : ClientResponse)
  (lines : list bytes) (texts : list str) (raw : bytes)
  (rest : list bytes) :
  request_of self prompt true = Ok request ->
  post request = Ok response ->
  status response = 200 ->
  iter_lines (content response) = lines ++ raw :: rest ->
  passed json_loads lines texts ->
  utf8_points raw = None ->
  generate_stream self prompt callback
  = (map PyStr texts, Raised UnicodeDecodeError).
Proof.
  intros Hr Hp Hs Hl Hpass Hraw.
  rewrite (generate_stream_200 _ _ _ _ _ _ _ Hr Hp Hs), Hl.
  rewrite (stream_loop_passed _ _ _ _ Hpass).
  cbn [stream_loop]. unfold decode_utf8. rewrite Hraw. cbn.
  rewrite app_nil_r. reflexivity.
Qed.

(** X5. A [data:] line whose JSON document is not an object (a number,
    a string, a list, [null]) ends the generator with [AttributeError],
    after the fragments of the lines before it. *)
Theorem non_object_document_ends_stream
  (self : GPTModel) (prompt : str) (callback : Callback)
  (request : Request) (response : ClientResponse)
  (lines : list bytes) (texts : list str) (raw : bytes) (payload : str)
  (data : pyobj) (rest : list bytes) :
  request_of self prompt true = Ok request ->
  post request = Ok response ->
  status response = 200 ->
  iter_lines (content response) = lines ++ raw :: rest ->
  passed json_loads lines texts ->
  data_line raw payload ->
  json_loads payload = Ok data ->
  (forall items, data <> PyDict items) ->
  generate_stream self prompt callback
  = (map PyStr texts, Raised AttributeError).
Proof.
  intros Hr Hp Hs Hl Hpass Hraw Hj Hd.
  rewrite (generate_stream_200 _ _ _ _ _ _ _ Hr Hp Hs), Hl.
  rewrite (stream_loop_passed _ _ _ _ Hpass).
  rewrite (stream_loop_data _ _ _ _ Hraw), Hj. cbn [bind].
  assert (E : delta_content data = Raise AttributeError).
  { destruct data; try reflexivity. exfalso. eapply Hd. reflexivity. }
  rewrite E. cbn. rewrite app_nil_r. reflexivity.
Qed.

End MalformedLines.

Ltac show_one_passed :=
  apply passed_delta; [show_delta_line | discriminate | apply passed_nil].

Lemma undecodable_line_ends_stream_witness :
  generate_stream JsonText.loads
                  (answering (streamed [hel_line; latin1_line; lo_line]))
                  sample_self sample_prompt None
  = ([PyStr (lit "Hel")], Raised UnicodeDecodeError).
Proof.
  apply (undecodable_line_ends_stream
           JsonText.loads
           (answering (streamed [hel_line; latin1_line; lo_line]))
           sample_self sample_prompt None _
           (streamed [hel_line; latin1_line; lo_line])
           [hel_line] [lit "Hel"] latin1_line [lo_line]
           eq_refl eq_refl eq_refl).
  - evaluate.
  - show_one_passed.
  - evaluate.
Defined.

Lemma non_object_document_ends_stream_witness :
  generate_stream JsonText.loads
                  (answering (streamed [hel_line; number_line; lo_line]))
                  sample_self sample_prompt None
  = ([PyStr (lit "Hel")], Raised AttributeError).
Proof.
  eapply (non_object_document_ends_stream
            JsonText.loads
            (answering (streamed [hel_line; number_line; lo_line]))
            sample_self sample_prompt None _
            (streamed [hel_line; number_line; lo_line])
            [hel_line] [lit "Hel"] number_line _ _ [lo_line]
            eq_refl eq_refl eq_refl).
  - evaluate.
  - show_one_passed.
  - show_data_line.
  - evaluate.
  - discriminate.
Defined.

(* ================================================================= *)
(** * More on the buffered path, the request and the constructor *)
(* ================================================================= *)

Section MoreBuffered.

Variable json_loads : str -> pyres pyobj.
Variable post : Request -> pyres ClientResponse.

Local Abbreviation generate := (generate post).
Local Abbreviation generate_stream := (generate_stream json_loads post).

(** X6. On a response with status 200 and a JSON body, [generate]
    returns a value exactly when the envelope has the fields [choices],
    [message] and [content], and the value is the content as it is, of
    whatever type: a [null] content is returned as [None], not reported
    as an error. *)
Theorem generate_returns_content_as_is
  (self : GPTModel) (prompt : str) (callback : Callback)
  (request : Request) (response : ClientResponse) (envelope : pyobj) :
  request_of self prompt false = Ok request ->
  post request = Ok response ->
  status response = 200 ->
  json response = Ok envelope ->
  forall v,
    generate self prompt callback = Ok v <->
    envelope_content envelope = Some v.
Proof.
  intros Hr Hp Hs Hj v.
  rewrite (generate_response _ _ _ _ _ _ Hr Hp), Hs, Hj. cbn.
  pose proof (message_content_spec envelope) as H.
  destruct (envelope_content envelope) as [w|].
  - rewrite H. split; intros E; inversion E; reflexivity.
  - destruct H as (e & He & _). rewrite He. split; discriminate.
Qed.

(** X7. Proxy settings that are not empty and have no entry for [https]
    make both methods end with [KeyError] for the key [https], whatever
    the network: no exchange takes place. *)
Theorem proxy_without_https_raises_KeyError
  (self : GPTModel) (prompt : str) (callback : Callback)
  (items : list (str * pyobj)) :
  proxy self = PyDict items ->
  items <> [] ->
  lookup k_https items = None ->
  generate self prompt callback = Raise (KeyError (PyStr k_https))
  /\ generate_stream self prompt callback
     = ([], Raised (KeyError (PyStr k_https))).
Proof.
  intros Hp Hi Hl.
  assert (E : forall stream,
             request_of self prompt stream = Raise (KeyError (PyStr k_https))).
  { intros stream. unfold request_of, proxy_of. rewrite Hp.
    destruct items; [contradiction|]. cbn [truthy is_nil negb getitem_key].
    rewrite Hl. reflexivity. }
  split.
  - unfold Client.generate. rewrite E. reflexivity.
  - unfold Client.generate_stream. rewrite E. reflexivity.
Qed.

End MoreBuffered.

Lemma generate_returns_content_as_is_witness :
  generate (answering null_content_envelope) sample_self sample_prompt None
  = Ok PyNone.
Proof.
  apply (generate_returns_content_as_is
           (answering null_content_envelope) sample_self sample_prompt None
           _ null_content_envelope _
           eq_refl eq_refl eq_refl eq_refl PyNone).
  reflexivity.
Defined.

Lemma proxy_without_https_raises_KeyError_witness :
  generate (answering hello_envelope) http_only_self sample_prompt None
  = Raise (KeyError (PyStr k_https))
  /\ generate_stream JsonText.loads (answering hello_stream)
                     http_only_self sample_prompt None
     = ([], Raised (KeyError (PyStr k_https))).
Proof.
  split.
  - refine (proj1 (proxy_without_https_raises_KeyError
                     JsonText.loads (answering hello_envelope)
                     http_only_self sample_prompt None _ eq_refl _ eq_refl)).
    discriminate.
  - refine (proj2 (proxy_without_https_raises_KeyError
                     JsonText.loads (answering hello_stream)
                     http_only_self sample_prompt None _ eq_refl _ eq_refl)).
    discriminate.
Defined.

(** X8. A configuration with a non-empty key and no proxy: the
    constructor succeeds, and the client it makes calls the fixed
    endpoint with the key, unchanged, in the [Authorization] header, the
    prompt as the only message, the configured model name when there is
    one and the default model otherwise, and no proxy. *)
Theorem constructed_client_request
  (config_manager : ConfigManager) (key : str)
  (prompt : str) (stream : bool) :
  get_api_key config_manager provider_gpt = Some key ->
  key <> [] ->
  truthy (proxy_settings config_manager) = false ->
  exists self,
    GPTModel_init config_manager = Ok self
    /\ request_of self prompt stream
       = Ok {| post_url := openai_url;
               post_headers := [(k_content_type, application_json);
                                (k_authorization, bearer ++ key)];
               post_json :=
                 PyDict [(k_model,
                          PyStr
                            match get_model_name config_manager provider_gpt
                            with
                            | Some (c :: name) => c :: name
                            | _ => default_model
                            end);
                         (k_messages,
                          PyList [PyDict [(k_role, PyStr k_user);
                                          (k_content, PyStr prompt)]]);
                         (k_stream, PyBool stream)];
               post_proxy := PyNone |}.
Proof.
  intros Hk Hne Hp. unfold GPTModel_init. rewrite Hk.
  destruct key as [|c key]; [contradiction|]. cbn [truthy_opt is_nil negb].
  eexists. split; [reflexivity|].
  unfold request_of, proxy_of, AIModel_init. cbn [proxy]. rewrite Hp.
  cbn [bind]. unfold headers_of, data_of. cbn [api_key model_name str_value].
  destruct (get_model_name config_manager provider_gpt) as [[|d name]|];
    reflexivity.
Qed.

Lemma constructed_client_request_witness :
  exists self,
    GPTModel_init full_config = Ok self
    /\ request_of self sample_prompt true
       = Ok {| post_url := openai_url;
               post_headers := [(k_content_type, application_json);
                                (k_authorization, bearer ++ lit "sk-test")];
               post_json :=
                 PyDict [(k_model, PyStr (lit "gpt-4o"));
                         (k_messages,
                          PyList [PyDict [(k_role, PyStr k_user);
                                          (k_content, PyStr sample_prompt)]]);
                         (k_stream, PyBool true)];
               post_proxy := PyNone |}.
Proof.
  apply (constructed_client_request
           full_config (lit "sk-test") sample_prompt true eq_refl).
  - discriminate.
  - reflexivity.
Defined.

(* ================================================================= *)
(** * White space around a line *)
(* ================================================================= *)

Lemma ascii_space_facts (b : Z) :
  ascii_space b = true ->
  between 0x00 0x7F b = true /\ isspace b = true /\ b <= 32.
Proof.
  unfold ascii_space, between, isspace. intros H.
  apply orb_true_iff in H.
  destruct H as [H | H]; apply andb_true_iff in H; destruct H as [H1 H2];
    apply Z.leb_le in H1; apply Z.leb_le in H2;
    (split; [apply andb_true_iff; split; apply Z.leb_le; lia|]);
    (split; [|lia]).
  - replace ((9 <=? b) && (b <=? 13)) with true; [reflexivity|].
    symmetry. apply andb_true_iff. split; apply Z.leb_le; lia.
  - replace ((28 <=? b) && (b <=? 32)) with true;
      [rewrite orb_true_r; reflexivity|].
    symmetry. apply andb_true_iff. split; apply Z.leb_le; lia.
Qed.

Lemma between_high_false (lo hi b : Z) :
  b <= 32 -> 0x80 <= lo -> between lo hi b = false.
Proof.
  intros Hb Hlo. unfold between.
  apply andb_false_iff. left. apply Z.leb_gt. lia.
Qed.

Lemma utf8_points_cons (b0 : Z) (r0 : bytes) :
  utf8_points (b0 :: r0) =
  if between 0x00 0x7F b0 then
    option_map (cons b0) (utf8_points r0)
  else if between 0xC2 0xDF b0 then
    match r0 with
    | b1 :: r1 =>
      if cont b1
      then option_map (cons ((b0 - 0xC0) * 64 + (b1 - 0x80)))
                      (utf8_points r1)
      else None
    | _ => None
    end
  else if between 0xE0 0xEF b0 then
    match r0 with
    | b1 :: b2 :: r2 =>
      if between (if b0 =? 0xE0 then 0xA0 else 0x80)
                 (if b0 =? 0xED then 0x9F else 0xBF) b1 && cont b2
      then option_map
             (cons ((b0 - 0xE0) * 4096 + (b1 - 0x80) * 64 + (b2 - 0x80)))
             (utf8_points r2)
      else None
    | _ => None
    end
  else if between 0xF0 0xF4 b0 then
    match r0 with
    | b1 :: b2 :: b3 :: r3 =>
      if between (if b0 =? 0xF0 then 0x90 else 0x80)
                 (if b0 =? 0xF4 then 0x8F else 0xBF) b1
         && cont b2 && cont b3
      then option_map
             (cons ((b0 - 0xF0) * 262144 + (b1 - 0x80) * 4096
                    + (b2 - 0x80) * 64 + (b3 - 0x80)))
             (utf8_points r3)
      else None
    | _ => None
    end
  else None.
Proof. reflexivity. Qed.

Lemma utf8_points_prepend (p bs : bytes) :
  Forall (fun b => ascii_space b = true) p ->
  utf8_points (p ++ bs) = option_map (app p) (utf8_points bs).
Proof.
  induction 1 as [|b p Hb _ IH]; cbn [app].
  - destruct (utf8_points bs); reflexivity.
  - rewrite utf8_points_cons.
    destruct (ascii_space_facts b Hb) as (-> & _ & _).
    rewrite IH. destruct (utf8_points bs); reflexivity.
Qed.

Lemma cont_space (x : Z) : ascii_space x = true -> cont x = false.
Proof.
  intros H. destruct (ascii_space_facts x H) as (_ & _ & Hx).
  apply between_high_false; lia.
Qed.

Lemma utf8_points_append_aux (p : bytes) :
  Forall (fun b => ascii_space b = true) p ->
  forall (n : nat) (bs : bytes),
    (List.length bs <= n)%nat ->
    utf8_points (bs ++ p) = option_map (fun s => s ++ p) (utf8_points bs).
Proof.
  intros Hp.
  assert (Hnil : utf8_points p = Some p).
  { rewrite <- (app_nil_r p) at 1. rewrite (utf8_points_prepend p [] Hp).
    cbn. rewrite app_nil_r. reflexivity. }
  assert (Hcont : forall x p', p = x :: p' -> cont x = false).
  { intros x p' ->. apply cont_space. inversion Hp. assumption. }
  assert (Hlead : forall x p' (c : bool) lo' hi,
             p = x :: p' -> 0x80 <= lo' ->
             between (if c then lo' else 0x80) hi x = false).
  { intros x p' c lo' hi -> Hlo.
    assert (Hx : ascii_space x = true) by (inversion Hp; assumption).
    destruct (ascii_space_facts x Hx) as (_ & _ & Hx32).
    apply between_high_false; [exact Hx32 | destruct c; lia]. }
  induction n as [|n IH]; intros bs Hlen.
  - destruct bs; [exact Hnil | simpl in Hlen; lia].
  - destruct bs as [|b0 r0]; [exact Hnil|].
    cbn [app]. rewrite !utf8_points_cons.
    destruct (between 0x00 0x7F b0).
    { rewrite IH by (simpl in Hlen; lia).
      destruct (utf8_points r0); reflexivity. }
    destruct (between 0xC2 0xDF b0).
    { destruct r0 as [|b1 r1]; cbn [app].
      - destruct p as [|x p']; [reflexivity|].
        rewrite (Hcont x p' eq_refl). reflexivity.
      - destruct (cont b1); [|reflexivity].
        rewrite IH by (simpl in Hlen; lia).
        destruct (utf8_points r1); reflexivity. }
    destruct (between 0xE0 0xEF b0).
    { destruct r0 as [|b1 [|b2 r2]]; cbn [app].
      - destruct p as [|x [|y p']]; try reflexivity.
        erewrite Hlead; [reflexivity | reflexivity | lia].
      - destruct p as [|x p']; [reflexivity|].
        rewrite (Hcont x p' eq_refl), andb_false_r. reflexivity.
      - destruct (_ && _); [|reflexivity].
        rewrite IH by (simpl in Hlen; lia).
        destruct (utf8_points r2); reflexivity. }
    destruct (between 0xF0 0xF4 b0); [|reflexivity].
    destruct r0 as [|b1 [|b2 [|b3 r3]]]; cbn [app].
    + destruct p as [|x [|y [|z p']]]; try reflexivity.
      erewrite Hlead; [reflexivity | reflexivity | lia].
    + destruct p as [|x [|y p']]; try reflexivity.
      rewrite (Hcont x (y :: p') eq_refl), andb_false_r. reflexivity.
    + destruct p as [|x p']; [reflexivity|].
      rewrite (Hcont x p' eq_refl), andb_false_r. reflexivity.
    + destruct (_ && _ && _); [|reflexivity].
      rewrite IH by (simpl in Hlen; lia).
      destruct (utf8_points r3); reflexivity.
Qed.

Lemma utf8_points_padded (p1 p2 raw : bytes) :
  Forall (fun b => ascii_space b = true) p1 ->
  Forall (fun b => ascii_space b = true) p2 ->
  utf8_points (p1 ++ raw ++ p2) =
  option_map (fun s => p1 ++ s ++ p2) (utf8_points raw).
Proof.
  intros H1 H2. rewrite (utf8_points_prepend _ _ H1).
  rewrite (utf8_points_append_aux p2 H2 (List.length raw) raw (le_n _)).
  destruct (utf8_points raw); reflexivity.
Qed.

(** [strip] *)

Lemma lstrip_spaces (p s : str) :
  Forall (fun c => isspace c = true) p -> lstrip (p ++ s) = lstrip s.
Proof.
  induction 1 as [|c p Hc _ IH]; [reflexivity|].
  cbn [app lstrip]. rewrite Hc. exact IH.
Qed.

Lemma lstrip_app (s p : str) :
  lstrip (s ++ p) =
  match lstrip s with
  | [] => lstrip p
  | _ :: _ => lstrip s ++ p
  end.
Proof.
  induction s as [|c s IH]; [reflexivity|].
  cbn [app lstrip]. destruct (isspace c); [exact IH | reflexivity].
Qed.

Lemma rstrip_spaces (s p : str) :
  Forall (fun c => isspace c = true) p -> rstrip (s ++ p) = rstrip s.
Proof.
  intros H. unfold rstrip. rewrite rev_app_distr.
  rewrite lstrip_spaces; [reflexivity|].
  apply Forall_rev. exact H.
Qed.

Lemma strip_padded (p1 p2 s : str) :
  Forall (fun c => isspace c = true) p1 ->
  Forall (fun c => isspace c = true) p2 ->
  strip (p1 ++ s ++ p2) = strip s.
Proof.
  intros H1 H2. unfold strip.
  rewrite (lstrip_spaces _ _ H1), lstrip_app.
  destruct (lstrip s) as [|c t] eqn:E.
  - rewrite <- (app_nil_r p2), (lstrip_spaces _ _ H2). reflexivity.
  - apply rstrip_spaces. exact H2.
Qed.

Lemma ascii_spaces_isspace (p : bytes) :
  Forall (fun b => ascii_space b = true) p ->
  Forall (fun c => isspace c = true) p.
Proof.
  intros H. eapply Forall_impl; [|exact H].
  intros b Hb. apply ascii_space_facts. exact Hb.
Qed.

Lemma stream_loop_padded
  (json_loads : str -> pyres pyobj) (p1 p2 raw : bytes) (rest : list bytes) :
  Forall (fun b => ascii_space b = true) p1 ->
  Forall (fun b => ascii_space b = true) p2 ->
  stream_loop json_loads ((p1 ++ raw ++ p2) :: rest)
  = stream_loop json_loads (raw :: rest).
Proof.
  intros H1 H2. cbn [stream_loop]. unfold decode_utf8.
  rewrite (utf8_points_padded _ _ _ H1 H2).
  destruct (utf8_points raw) as [s|]; cbn [option_map]; [|reflexivity].
  rewrite (strip_padded _ _ _ (ascii_spaces_isspace _ H1)
                        (ascii_spaces_isspace _ H2)).
  reflexivity.
Qed.

(** X9. ASCII white space before and after a line (an indentation, a
    carriage return before the line feed, trailing blanks) changes
    nothing: the generator handles the line as it handles the line
    without it. *)
Theorem padding_ignored
  (json_loads : str -> pyres pyobj)
  (post_padded post_plain : Request -> pyres ClientResponse)
  (self : GPTModel) (prompt : str) (callback : Callback)
  (request : Request) (padded plain : ClientResponse)
  (before after : list bytes) (p1 p2 raw : bytes) :
  request_of self prompt true = Ok request ->
  post_padded request = Ok padded ->
  post_plain request = Ok plain ->
  status padded = 200 ->
  status plain = 200 ->
  iter_lines (content padded) = before ++ (p1 ++ raw ++ p2) :: after ->
  iter_lines (content plain) = before ++ raw :: after ->
  Forall (fun b => ascii_space b = true) p1 ->
  Forall (fun b => ascii_space b = true) p2 ->
  generate_stream json_loads post_padded self prompt callback
  = generate_stream json_loads post_plain self prompt callback.
Proof.
  intros Hr Hpd Hpl Hsd Hsl Hld Hll H1 H2.
  rewrite (generate_stream_200 _ _ _ _ _ _ _ Hr Hpd Hsd).
  rewrite (generate_stream_200 _ _ _ _ _ _ _ Hr Hpl Hsl).
  rewrite Hld, Hll. apply stream_loop_app_congr.
  apply stream_loop_padded; assumption.
Qed.

Lemma padding_ignored_witness :
  generate_stream JsonText.loads
                  (answering (streamed [hel_line; lo_padded]))
                  sample_self sample_prompt None
  = generate_stream JsonText.loads
                    (answering (streamed [hel_line; lo_text]))
                    sample_self sample_prompt None.
Proof.
  apply (padding_ignored
           JsonText.loads
           (answering (streamed [hel_line; lo_padded]))
           (answering (streamed [hel_line; lo_text]))
           sample_self sample_prompt None _
           (streamed [hel_line; lo_padded])
           (streamed [hel_line; lo_text])
           [hel_line] [] [32; 9] [13; 10] lo_text
           eq_refl eq_refl eq_refl eq_refl eq_refl).
  - evaluate.
  - evaluate.
  - repeat constructor.
  - repeat constructor.
Defined.

(* ================================================================= *)
(** * The statistics dialog *)
(* ================================================================= *)

Import StatisticsDialog.

Lemma len_iterate (v : pyobj) (n : nat) (items : list pyobj) :
  len v = Ok n -> iterate v = Ok items -> List.length items = n.
Proof.
  destruct v; simpl; try discriminate; intros Hn Hi;
    inversion Hn; inversion Hi; try rewrite length_map; reflexivity.
Qed.

Lemma words_of_app (a b : list ChapterStat) :
  words_of (a ++ b) = (words_of a + words_of b)%nat.
Proof. unfold words_of. rewrite map_app, list_sum_app. reflexivity. Qed.

Lemma completed_of_app (a b : list ChapterStat) :
  completed_of (a ++ b) = completed_of a ++ completed_of b.
Proof. apply filter_app. Qed.

Lemma rows_of_app (i : nat) (a b : list ChapterStat) :
  rows_of i (a ++ b) = rows_of i a ++ rows_of i b.
Proof. apply filter_app. Qed.

(** The inner loop adds one row per chapter, numbered from [j] on, and
    adds the words and the completed chapters of these rows to the
    counters. *)
Lemma chapters_loop_spec (data_manager : DataManager) (i : nat) :
  forall (chapters : list pyobj) (j : nat) (st : Locals) (vw vc : nat)
         (st' : Locals) (vw' vc' : nat),
    chapters_loop data_manager i j chapters st vw vc = Ok (st', vw', vc') ->
    exists rows,
      chapter_stats st' = chapter_stats st ++ rows
      /\ map position_of rows = map (pair i) (seq j (List.length chapters))
      /\ Forall row_sound rows
      /\ total_words st' = (total_words st + words_of rows)%nat
      /\ vw' = (vw + words_of rows)%nat
      /\ completed_chapters st'
         = (completed_chapters st + List.length (completed_of rows))%nat
      /\ vc' = (vc + List.length (completed_of rows))%nat
      /\ volume_stats st' = volume_stats st
      /\ total_chapters st' = total_chapters st.
Proof.
  induction chapters as [|chapter chapters IH];
    intros j st vw vc st' vw' vc' H.
  - inversion H. subst. exists []. cbn.
    rewrite app_nil_r, !Nat.add_0_r. repeat split; constructor.
  - cbn [chapters_loop] in H.
    destruct (get chapter k_title _) as [chapter_title|] eqn:Et;
      [|discriminate]. cbn [bind] in H.
    destruct (get_chapter data_manager i j) as [content|] eqn:Ec;
      [|discriminate]. cbn [bind] in H.
    destruct (if truthy content then len content else Ok 0%nat)
      as [word_count|] eqn:Ew; [|discriminate]. cbn [bind] in H.
    apply IH in H.
    destruct H as (rows & Hrows & Hpos & Hsound & Htw & Hvw & Hcc & Hvc
                   & Hvs & Htc).
    cbn [chapter_stats total_words completed_chapters volume_stats
         total_chapters] in *.
    eexists (_ :: rows). rewrite Hrows, <- app_assoc. cbn [app].
    split; [reflexivity|].
    split.
    { cbn [map List.length seq]. unfold position_of at 1.
      cbn [chapter_volume_index chapter_index].
      rewrite Hpos. replace (j + 1)%nat with (S j) by lia. reflexivity. }
    split; [constructor; [reflexivity | exact Hsound]|].
    unfold words_of, completed_of, list_sum in *.
    cbn [map fold_right filter chapter_word_count chapter_is_completed].
    destruct (0 <? word_count)%nat; cbn [List.length];
      repeat split; try assumption; lia.
Qed.

Lemma map_seq_bounds {A} (f : A -> nat) (l : list A) (a n : nat) :
  map f l = seq a n -> Forall (fun x => (a <= f x < a + n)%nat) l.
Proof.
  revert a n; induction l as [|x l IH]; intros a n H; [constructor|].
  destruct n as [|n]; [discriminate|]. cbn in H. inversion H as [[Hx Hl]].
  constructor; [lia|].
  apply IH in Hl. eapply Forall_impl; [|exact Hl].
  cbn. intros y Hy. lia.
Qed.

Lemma positions_volume (i : nat) (rows : list ChapterStat) (l : list nat) :
  map position_of rows = map (pair i) l ->
  Forall (fun row => chapter_volume_index row = i) rows
  /\ List.length rows = List.length l.
Proof.
  revert l; induction rows as [|row rows IH]; intros [|j l] H;
    try discriminate; [split; [constructor | reflexivity]|].
  cbn in H. injection H as Hv Hj Hl.
  destruct (IH l Hl) as [Hf Hlen].
  split; [constructor; assumption | cbn; rewrite Hlen; reflexivity].
Qed.

Lemma rows_of_other (k : nat) (rows : list ChapterStat) :
  Forall (fun row => chapter_volume_index row <> k) rows ->
  rows_of k rows = [].
Proof.
  induction 1 as [|row rows Hr _ IH]; [reflexivity|].
  unfold rows_of in *. cbn [filter].
  destruct (Nat.eqb_spec (chapter_volume_index row) k); [contradiction|].
  exact IH.
Qed.

Lemma rows_of_same (k : nat) (rows : list ChapterStat) :
  Forall (fun row => chapter_volume_index row = k) rows ->
  rows_of k rows = rows.
Proof.
  induction 1 as [|row rows Hr _ IH]; [reflexivity|].
  unfold rows_of in *. cbn [filter]. rewrite Hr, Nat.eqb_refl, IH.
  reflexivity.
Qed.

(** Going through one more volume keeps the counters and the lists
    consistent. *)
Lemma volume_step_consistent
  (i : nat) (st st2 : Locals) (rows : list ChapterStat)
  (volume_title : pyobj) (chapter_count vw vc : nat) :
  consistent i st ->
  chapter_stats st2 = chapter_stats st ++ rows ->
  map position_of rows = map (pair i) (seq 0 chapter_count) ->
  Forall row_sound rows ->
  total_words st2 = (total_words st + words_of rows)%nat ->
  vw = words_of rows ->
  completed_chapters st2
  = (completed_chapters st + List.length (completed_of rows))%nat ->
  vc = List.length (completed_of rows) ->
  volume_stats st2 = volume_stats st ->
  total_chapters st2 = (total_chapters st + chapter_count)%nat ->
  consistent (i + 1)
    {| total_chapters := total_chapters st2;
       completed_chapters := completed_chapters st2;
       total_words := total_words st2;
       volume_stats :=
         volume_stats st2 ++
         [{| volume_index := i;
             volume_title := volume_title;
             volume_chapter_count := chapter_count;
             volume_word_count := vw;
             volume_completed_chapters := vc |}];
       chapter_stats := chapter_stats st2 |}.
Proof.
  intros (Htc & Htw & Hcc & Hsound & Hvi & Hpos & Hvol & Hlt & Hsc & Hsw
          & Hsd)
         Hrows Hrpos Hrsound Htw2 Hvw Hcc2 Hvc Hvs Htc2.
  destruct (positions_volume _ _ _ Hrpos) as [Hri Hrlen].
  rewrite length_seq in Hrlen.
  assert (Hold : rows_of i (chapter_stats st) = []).
  { apply rows_of_other. eapply Forall_impl; [|exact Hlt].
    cbn. intros row Hrow. lia. }
  unfold consistent.
  cbn [total_chapters completed_chapters total_words volume_stats
       chapter_stats].
  rewrite Hrows, Hvs, Htc2, Htw2, Hcc2.
  rewrite !map_app, !list_sum_app, flat_map_app, words_of_app,
          completed_of_app, !length_app.
  cbn [map flat_map list_sum fold_right volume_index volume_chapter_count
       volume_word_count volume_completed_chapters].
  rewrite app_nil_r, Hvi, Hpos, Hrpos, Hsc, Hsw, Hsd, Hrlen.
  repeat split; try lia.
  - apply Forall_app. split; assumption.
  - replace (i + 1)%nat with (S i) by lia. rewrite seq_S. reflexivity.
  - apply Forall_app. split.
    + pose proof (map_seq_bounds _ _ _ _ Hvi) as Hb.
      rewrite Forall_forall in *. intros v Hv.
      specialize (Hb v Hv). specialize (Hvol v Hv).
      unfold volume_sound in *. rewrite rows_of_app.
      rewrite (rows_of_other (volume_index v) rows), app_nil_r;
        [exact Hvol|].
      rewrite Forall_forall. intros row Hrow.
      rewrite (Hri row Hrow). lia.
    + constructor; [|constructor]. unfold volume_sound.
      cbn [volume_index volume_chapter_count volume_word_count
           volume_completed_chapters].
      rewrite rows_of_app, Hold, (rows_of_same _ _ Hri). cbn [app].
      repeat split; [symmetry; exact Hrlen | exact Hvw | exact Hvc].
  - apply Forall_app. split.
    + eapply Forall_impl; [|exact Hlt]. cbn. intros row Hrow. lia.
    + eapply Forall_impl; [|exact Hri]. cbn. intros row Hrow. lia.
Qed.

(** The loop over the volumes keeps the counters and the lists
    consistent. *)
Lemma volumes_loop_consistent (data_manager : DataManager) :
  forall (volumes : list pyobj) (i : nat) (st st' : Locals),
    volumes_loop data_manager i volumes st = Ok st' ->
    consistent i st ->
    consistent (i + List.length volumes) st'.
Proof.
  induction volumes as [|volume volumes IH]; intros i st st' H Hc.
  - inversion H. subst. cbn. rewrite Nat.add_0_r. exact Hc.
  - cbn [volumes_loop] in H.
    destruct (get volume k_title _) as [volume_title|]; [|discriminate].
    cbn [bind] in H.
    destruct (get volume k_chapters _) as [chapters|]; [|discriminate].
    cbn [bind] in H.
    destruct (len chapters) as [chapter_count|] eqn:El; [|discriminate].
    cbn [bind] in H.
    destruct (iterate chapters) as [items|] eqn:Ei; [|discriminate].
    cbn [bind] in H.
    destruct (chapters_loop _ _ _ _ _ _ _) as [[[st2 vw] vc]|] eqn:Ec;
      [|discriminate].
    cbn [bind] in H.
    apply chapters_loop_spec in Ec.
    destruct Ec as (rows & Hrows & Hpos & Hsound & Htw & Hvw & Hcc & Hvc
                    & Hvs & Htc).
    cbn [chapter_stats total_words completed_chapters volume_stats
         total_chapters] in *.
    rewrite (len_iterate _ _ _ El Ei) in Hpos.
    apply IH in H.
    + cbn [List.length].
      replace (i + S (List.length volumes))%nat
        with (i + 1 + List.length volumes)%nat by lia.
      exact H.
    + eapply volume_step_consistent; eassumption.
Qed.

Lemma calculate_statistics_consistent
  (data_manager : DataManager) (s : Statistics) :
  calculate_statistics data_manager = Ok (Some s) ->
  consistent (volume_count s) (counted s)
  /\ charts s
     = draw_charts (volume_stats (counted s)) (chapter_stats (counted s)).
Proof.
  unfold calculate_statistics. intros H.
  destruct (get_outline data_manager) as [outline|]; [|discriminate].
  cbn [bind] in H.
  destruct (negb (truthy outline)); [discriminate|].
  destruct (get outline k_title _) as [t|]; [|discriminate].
  cbn [bind] in H.
  destruct (get outline k_volumes _) as [volumes|]; [|discriminate].
  cbn [bind] in H.
  destruct (len volumes) as [n|] eqn:El; [|discriminate]. cbn [bind] in H.
  destruct (iterate volumes) as [items|] eqn:Ei; [|discriminate].
  cbn [bind] in H.
  destruct (volumes_loop _ _ _ _) as [st|] eqn:Ev; [|discriminate].
  cbn [bind] in H. inversion H. subst s. cbn [volume_count counted charts].
  split; [|reflexivity].
  apply volumes_loop_consistent in Ev.
  - rewrite (len_iterate _ _ _ El Ei) in Ev. exact Ev.
  - unfold consistent. cbn. repeat split; constructor.
Qed.

(** An object that counts as false has no element. *)
Lemma falsy_len (v : pyobj) (n : nat) :
  truthy v = false -> len v = Ok n -> n = 0%nat.
Proof.
  destruct v as [| | | |s|l|items]; cbn; try discriminate;
    [destruct s | destruct l | destruct items as [|[k x] items]];
    cbn; try discriminate; intros _ H; inversion H; reflexivity.
Qed.

(** [word_count > 0] holds exactly when the content has a length, and it
    is not 0. *)
Lemma word_count_positive (content : pyobj) (word_count : nat) :
  (if truthy content then len content else Ok 0%nat) = Ok word_count ->
  (0 <? word_count)%nat = true <-> exists n, len content = Ok (S n).
Proof.
  destruct (truthy content) eqn:Et; intros Hw.
  - rewrite Hw. split.
    + intros H. apply Nat.ltb_lt in H.
      destruct word_count as [|n]; [lia|]. exists n. reflexivity.
    + intros [n Hn]. inversion Hn. reflexivity.
  - inversion Hw. subst word_count. split; [discriminate|].
    intros [n Hn]. apply (falsy_len _ _ Et) in Hn. discriminate.
Qed.

(** The inner loop adds, for each chapter of the volume, the row of this
    chapter and of its content. *)
Lemma chapters_loop_reads (data_manager : DataManager) (i : nat) :
  forall (chapters : list pyobj) (j : nat) (st : Locals) (vw vc : nat)
         (st' : Locals) (vw' vc' : nat),
    chapters_loop data_manager i j chapters st vw vc = Ok (st', vw', vc') ->
    exists rows,
      chapter_stats st' = chapter_stats st ++ rows
      /\ Forall (row_of_content data_manager) rows
      /\ Forall2 chapter_row_of chapters rows.
Proof.
  induction chapters as [|chapter chapters IH];
    intros j st vw vc st' vw' vc' H.
  - inversion H. subst. exists []. rewrite app_nil_r.
    repeat split; constructor.
  - cbn [chapters_loop] in H.
    destruct (get chapter k_title _) as [ct|] eqn:Et;
      [|discriminate]. cbn [bind] in H.
    destruct (get_chapter data_manager i j) as [content|] eqn:Ec;
      [|discriminate]. cbn [bind] in H.
    destruct (if truthy content then len content else Ok 0%nat)
      as [word_count|] eqn:Ew; [|discriminate]. cbn [bind] in H.
    apply IH in H. destruct H as (rows & Hrows & Hcontent & Houtline).
    cbn [chapter_stats] in Hrows.
    eexists (_ :: rows). rewrite Hrows, <- app_assoc. cbn [app].
    split; [reflexivity|]. split.
    + constructor; [|exact Hcontent].
      exists content.
      cbn [chapter_volume_index chapter_index chapter_word_count
           chapter_is_completed].
      split; [exact Ec | split; [exact Ew|]].
      apply word_count_positive. exact Ew.
    + constructor; [|exact Houtline].
      unfold chapter_row_of. cbn [chapter_index chapter_title]. exact Et.
Qed.

(** Rows of a later volume leave the entries of the earlier volumes the
    entries of their volumes. *)
Lemma volume_row_of_app
  (i : nat) (old rows : list ChapterStat)
  (volumes : list pyobj) (vs : list VolumeStat) :
  Forall (fun v => (volume_index v < i)%nat) vs ->
  Forall (fun row => chapter_volume_index row = i) rows ->
  Forall2 (volume_row_of old) volumes vs ->
  Forall2 (volume_row_of (old ++ rows)) volumes vs.
Proof.
  intros Hlt Hri H. induction H as [|volume v volumes vs Hv _ IH];
    [constructor|].
  inversion Hlt as [|? ? Hvi Hlt']. subst.
  constructor; [|apply IH; exact Hlt'].
  destruct Hv as (Ht & chapters_obj & chapters & Hc & Hl & Hit & Hrows).
  split; [exact Ht|]. exists chapters_obj, chapters.
  repeat split; try assumption.
  rewrite rows_of_app, (rows_of_other (volume_index v) rows), app_nil_r;
    [exact Hrows|].
  eapply Forall_impl; [|exact Hri]. cbn. intros row Hrow. lia.
Qed.

(** The loop over the volumes adds, for each volume, the entry of this
    volume, and the rows of its chapters and of their contents. *)
Lemma volumes_loop_reads (data_manager : DataManager) :
  forall (volumes : list pyobj) (i : nat) (st st' : Locals)
         (done : list pyobj),
    volumes_loop data_manager i volumes st = Ok st' ->
    consistent i st ->
    Forall (row_of_content data_manager) (chapter_stats st) ->
    Forall2 (volume_row_of (chapter_stats st)) done (volume_stats st) ->
    Forall (row_of_content data_manager) (chapter_stats st')
    /\ Forall2 (volume_row_of (chapter_stats st')) (done ++ volumes)
               (volume_stats st').
Proof.
  induction volumes as [|volume volumes IH];
    intros i st st' done H Hc Hcontent Houtline.
  - inversion H. subst. rewrite app_nil_r. split; assumption.
  - cbn [volumes_loop] in H.
    destruct (get volume k_title _) as [volume_title|] eqn:Et;
      [|discriminate].
    cbn [bind] in H.
    destruct (get volume k_chapters _) as [chapters|] eqn:Eg;
      [|discriminate].
    cbn [bind] in H.
    destruct (len chapters) as [chapter_count|] eqn:El; [|discriminate].
    cbn [bind] in H.
    destruct (iterate chapters) as [items|] eqn:Ei; [|discriminate].
    cbn [bind] in H.
    destruct (chapters_loop _ _ _ _ _ _ _) as [[[st2 vw] vc]|] eqn:Ec;
      [|discriminate].
    cbn [bind] in H.
    pose proof (chapters_loop_reads _ _ _ _ _ _ _ _ _ _ Ec)
      as (rows' & Hrows' & Hread & Hchapters).
    apply chapters_loop_spec in Ec.
    destruct Ec as (rows & Hrows & Hpos & Hsound & Htw & Hvw & Hcc & Hvc
                    & Hvs & Htc).
    cbn [chapter_stats total_words completed_chapters volume_stats
         total_chapters] in *.
    rewrite Hrows in Hrows'. apply app_inv_head in Hrows'. subst rows'.
    rewrite (len_iterate _ _ _ El Ei) in Hpos.
    destruct (positions_volume _ _ _ Hpos) as [Hri _].
    assert (Hlt : Forall (fun row => (chapter_volume_index row < i)%nat)
                         (chapter_stats st))
      by (destruct Hc as (_ & _ & _ & _ & _ & _ & _ & Hlt & _); exact Hlt).
    assert (Hvi : map volume_index (volume_stats st) = seq 0 i)
      by (destruct Hc as (_ & _ & _ & _ & Hvi & _); exact Hvi).
    replace (done ++ volume :: volumes) with ((done ++ [volume]) ++ volumes)
      by (rewrite <- app_assoc; reflexivity).
    eapply IH; [exact H | | |].
    + eapply volume_step_consistent; eassumption.
    + cbn [chapter_stats]. rewrite Hrows. apply Forall_app.
      split; assumption.
    + cbn [chapter_stats volume_stats]. rewrite Hrows, Hvs.
      apply Forall2_app.
      * apply (volume_row_of_app i); [|exact Hri|exact Houtline].
        pose proof (map_seq_bounds _ _ _ _ Hvi) as Hb.
        eapply Forall_impl; [|exact Hb]. cbn. intros v Hv. lia.
      * constructor; [|constructor].
        split; [exact Et|]. exists chapters, items.
        cbn [volume_index volume_chapter_count].
        repeat split; try assumption.
        rewrite rows_of_app, (rows_of_same _ _ Hri), rows_of_other;
          [exact Hchapters|].
        eapply Forall_impl; [|exact Hlt]. cbn. intros row Hrow. lia.
Qed.

(** The statistics are those of the outline and of the contents that
    the data manager holds. *)
Lemma calculate_statistics_reads
  (data_manager : DataManager) (s : Statistics) :
  calculate_statistics data_manager = Ok (Some s) ->
  Forall (row_of_content data_manager) (chapter_stats (counted s))
  /\ exists outline volumes_obj volumes,
      get_outline data_manager = Ok outline
      /\ get outline k_title (PyStr untitled) = Ok (title s)
      /\ get outline k_volumes (PyList []) = Ok volumes_obj
      /\ len volumes_obj = Ok (volume_count s)
      /\ iterate volumes_obj = Ok volumes
      /\ Forall2 (volume_row_of (chapter_stats (counted s))) volumes
                 (volume_stats (counted s)).
Proof.
  unfold calculate_statistics. intros H.
  destruct (get_outline data_manager) as [outline|]; [|discriminate].
  cbn [bind] in H.
  destruct (negb (truthy outline)); [discriminate|].
  destruct (get outline k_title _) as [t|] eqn:Et; [|discriminate].
  cbn [bind] in H.
  destruct (get outline k_volumes _) as [volumes|] eqn:Eg; [|discriminate].
  cbn [bind] in H.
  destruct (len volumes) as [n|] eqn:El; [|discriminate]. cbn [bind] in H.
  destruct (iterate volumes) as [items|] eqn:Ei; [|discriminate].
  cbn [bind] in H.
  destruct (volumes_loop _ _ _ _) as [st|] eqn:Ev; [|discriminate].
  cbn [bind] in H. inversion H. subst s.
  cbn [volume_count counted title].
  apply (volumes_loop_reads _ _ _ _ _ []) in Ev.
  - destruct Ev as [Hcontent Houtline]. split; [exact Hcontent|].
    exists outline, volumes, items. repeat split; assumption.
  - unfold consistent. cbn. repeat split; constructor.
  - constructor.
  - constructor.
Qed.

(** X10. When the statistics are computed, the number of volumes is the
    number of volume rows, and the total number of chapters is the number
    of chapter rows and the sum of the chapter counts of the volume
    rows. *)
Theorem statistics_counts_agree
  (data_manager : DataManager) (s : Statistics) :
  calculate_statistics data_manager = Ok (Some s) ->
  volume_count s = List.length (volume_stats (counted s))
  /\ total_chapters (counted s) = List.length (chapter_stats (counted s))
  /\ total_chapters (counted s)
     = list_sum (map volume_chapter_count (volume_stats (counted s))).
Proof.
  intros H. apply calculate_statistics_consistent in H.
  destruct H as [(Htc & _ & _ & _ & Hvi & _ & _ & _ & Hsc & _ & _) _].
  split; [|split; [exact Htc | symmetry; exact Hsc]].
  rewrite <- (length_map volume_index), Hvi, length_seq. reflexivity.
Qed.

(** X11. The total number of words is the sum of the words of the
    chapter rows and the sum of the words of the volume rows. *)
Theorem statistics_words_agree
  (data_manager : DataManager) (s : Statistics) :
  calculate_statistics data_manager = Ok (Some s) ->
  total_words (counted s) = words_of (chapter_stats (counted s))
  /\ total_words (counted s)
     = list_sum (map volume_word_count (volume_stats (counted s))).
Proof.
  intros H. apply calculate_statistics_consistent in H.
  destruct H as [(_ & Htw & _ & _ & _ & _ & _ & _ & _ & Hsw & _) _].
  split; [exact Htw | symmetry; exact Hsw].
Qed.

(** X12. Each chapter row gives the length of the content that the data
    manager holds for its chapter, 0 when the content is missing or
    empty, and says completed exactly when this content has at least one
    character, that is, when the row has words; the number of completed
    chapters is the number of such rows and the sum of the completed
    chapters of the volume rows, and it never exceeds the number of
    chapters. *)
Theorem statistics_completed_agree
  (data_manager : DataManager) (s : Statistics) :
  calculate_statistics data_manager = Ok (Some s) ->
  Forall (row_of_content data_manager) (chapter_stats (counted s))
  /\ Forall (fun row => chapter_is_completed row = true
                        <-> (0 < chapter_word_count row)%nat)
            (chapter_stats (counted s))
  /\ completed_chapters (counted s)
     = List.length (completed_of (chapter_stats (counted s)))
  /\ completed_chapters (counted s)
     = list_sum (map volume_completed_chapters (volume_stats (counted s)))
  /\ (completed_chapters (counted s) <= total_chapters (counted s))%nat.
Proof.
  intros H. pose proof (calculate_statistics_reads _ _ H) as [Hread _].
  apply calculate_statistics_consistent in H.
  destruct H as [(Htc & _ & Hcc & Hsound & _ & _ & _ & _ & _ & _ & Hsd) _].
  split; [exact Hread|].
  split; [|split; [exact Hcc | split; [symmetry; exact Hsd|]]].
  - eapply Forall_impl; [|exact Hsound].
    intros row Hrow. unfold row_sound in Hrow. rewrite Hrow.
    apply Nat.ltb_lt.
  - rewrite Hcc, Htc. apply filter_length_le.
Qed.

(** X13. The rows are those of the outline, in its order: there is one
    volume row for each volume of the outline of the data manager, in
    order, with the title of the volume or the numbered default and the
    length of its chapter list, and the chapter rows with the number of
    this volume are one for each chapter of the list, in order, with the
    title of the chapter or the numbered default; the volume rows are
    numbered from 0 on, the chapter rows follow volume by volume and,
    within a volume, chapter by chapter from 0 on; and the row of each
    volume gives the number, the words and the completed chapters of the
    rows of its own chapters. *)
Theorem statistics_rows_in_order
  (data_manager : DataManager) (s : Statistics) :
  calculate_statistics data_manager = Ok (Some s) ->
  (exists outline volumes_obj volumes,
      get_outline data_manager = Ok outline
      /\ get outline k_title (PyStr untitled) = Ok (title s)
      /\ get outline k_volumes (PyList []) = Ok volumes_obj
      /\ len volumes_obj = Ok (volume_count s)
      /\ iterate volumes_obj = Ok volumes
      /\ Forall2 (volume_row_of (chapter_stats (counted s))) volumes
                 (volume_stats (counted s)))
  /\ map volume_index (volume_stats (counted s)) = seq 0 (volume_count s)
  /\ map position_of (chapter_stats (counted s))
     = flat_map (fun v => map (pair (volume_index v))
                              (seq 0 (volume_chapter_count v)))
                (volume_stats (counted s))
  /\ Forall (volume_sound (chapter_stats (counted s)))
            (volume_stats (counted s)).
Proof.
  intros H. pose proof (calculate_statistics_reads _ _ H) as [_ Hread].
  apply calculate_statistics_consistent in H.
  destruct H as [(_ & _ & _ & _ & Hvi & Hpos & Hvol & _) _].
  split; [exact Hread | split; [exact Hvi | split; [exact Hpos | exact Hvol]]].
Qed.

Lemma completed_of_positive (rows : list ChapterStat) :
  Forall row_sound rows ->
  filter (fun row => (0 <? chapter_word_count row)%nat) rows
  = completed_of rows.
Proof.
  intros H. unfold completed_of. apply filter_ext_in.
  rewrite Forall_forall in H. intros row Hrow.
  symmetry. apply H. exact Hrow.
Qed.

Lemma words_of_positive (rows : list ChapterStat) :
  words_of (filter (fun row => (0 <? chapter_word_count row)%nat) rows)
  = words_of rows.
Proof.
  unfold words_of, list_sum.
  induction rows as [|row rows IH]; [reflexivity|].
  cbn [filter]. destruct (Nat.ltb_spec 0 (chapter_word_count row));
    cbn [map fold_right]; rewrite IH; lia.
Qed.

(** X14. The charts show the statistics: one bar per volume, numbered
    from 1 on, whose heights add up to the total number of words; the
    histogram is drawn exactly when some chapter is completed, and its
    data are the words of the completed chapters, all positive, as many
    as there are completed chapters, adding up to the total number of
    words. *)
Theorem charts_agree_with_statistics
  (data_manager : DataManager) (s : Statistics) :
  calculate_statistics data_manager = Ok (Some s) ->
  bar_positions (charts s) = seq 1 (volume_count s)
  /\ List.length (bar_heights (charts s)) = volume_count s
  /\ list_sum (bar_heights (charts s)) = total_words (counted s)
  /\ (histogram (charts s) = None <-> completed_chapters (counted s) = 0%nat)
  /\ forall data,
      histogram (charts s) = Some data ->
      List.length data = completed_chapters (counted s)
      /\ Forall (fun w => (0 < w)%nat) data
      /\ list_sum data = total_words (counted s).
Proof.
  intros H. apply calculate_statistics_consistent in H.
  destruct H as [(_ & Htw & Hcc & Hsound & Hvi & _ & _ & _ & _ & Hsw & _)
                 Hch].
  rewrite Hch. unfold draw_charts.
  cbn [bar_positions bar_heights histogram].
  set (rows := chapter_stats (counted s)) in *.
  set (positive := filter (fun row => (0 <? chapter_word_count row)%nat)
                          rows).
  assert (Hlen : List.length (map chapter_word_count positive)
                 = completed_chapters (counted s)).
  { rewrite length_map. unfold positive.
    rewrite (completed_of_positive _ Hsound). symmetry. exact Hcc. }
  assert (Hsum : list_sum (map chapter_word_count positive)
                 = total_words (counted s)).
  { rewrite Htw. apply words_of_positive. }
  assert (Hpos : Forall (fun w => (0 < w)%nat)
                        (map chapter_word_count positive)).
  { apply Forall_map. unfold positive. apply Forall_forall.
    intros row Hrow. apply filter_In in Hrow. destruct Hrow as [_ Hrow].
    apply Nat.ltb_lt. exact Hrow. }
  split; [|split; [|split; [exact Hsw | split]]].
  - rewrite <- seq_shift, <- Hvi, map_map. apply map_ext.
    intros v. lia.
  - rewrite length_map, <- (length_map volume_index), Hvi, length_seq.
    reflexivity.
  - destruct (map chapter_word_count positive) as [|w ws];
      cbn [is_nil List.length] in *.
    + split; [intros _; symmetry; exact Hlen | reflexivity].
    + split; [discriminate | intros E; rewrite E in Hlen; discriminate].
  - intros data Hd.
    destruct (map chapter_word_count positive) as [|w ws] eqn:E;
      cbn [is_nil] in Hd; [discriminate|].
    inversion Hd. subst data. repeat split; assumption.
Qed.

Ltac sample_run :=
  assert (calculate_statistics sample_manager = Ok (Some sample_statistics))
    by (vm_compute; reflexivity).

Lemma statistics_counts_agree_witness :
  volume_count sample_statistics
  = List.length (volume_stats (counted sample_statistics))
  /\ total_chapters (counted sample_statistics)
     = List.length (chapter_stats (counted sample_statistics))
  /\ total_chapters (counted sample_statistics)
     = list_sum (map volume_chapter_count
                     (volume_stats (counted sample_statistics))).
Proof.
  sample_run.
  apply (statistics_counts_agree sample_manager sample_statistics).
  assumption.
Defined.

Lemma statistics_words_agree_witness :
  total_words (counted sample_statistics)
  = words_of (chapter_stats (counted sample_statistics))
  /\ total_words (counted sample_statistics)
     = list_sum (map volume_word_count
                     (volume_stats (counted sample_statistics))).
Proof.
  sample_run.
  apply (statistics_words_agree sample_manager sample_statistics).
  assumption.
Defined.

Lemma statistics_completed_agree_witness :
  Forall (row_of_content sample_manager)
         (chapter_stats (counted sample_statistics))
  /\ completed_chapters (counted sample_statistics)
     = List.length (completed_of (chapter_stats (counted sample_statistics)))
  /\ (completed_chapters (counted sample_statistics)
      <= total_chapters (counted sample_statistics))%nat.
Proof.
  sample_run.
  destruct (statistics_completed_agree sample_manager sample_statistics)
    as (H0 & _ & H1 & _ & H2); [assumption|].
  split; [exact H0 | split; [exact H1 | exact H2]].
Defined.

Lemma statistics_rows_in_order_witness :
  (exists volumes,
      iterate (PyList volumes)
      = (outline <- get_outline sample_manager ;;
         volumes_obj <- get outline k_volumes (PyList []) ;;
         iterate volumes_obj)
      /\ Forall2 (volume_row_of (chapter_stats (counted sample_statistics)))
                 volumes (volume_stats (counted sample_statistics)))
  /\ map volume_index (volume_stats (counted sample_statistics))
     = seq 0 (volume_count sample_statistics)
  /\ Forall (volume_sound (chapter_stats (counted sample_statistics)))
            (volume_stats (counted sample_statistics)).
Proof.
  sample_run.
  destruct (statistics_rows_in_order sample_manager sample_statistics)
    as ((outline & volumes_obj & volumes & Ho & _ & Hv & _ & Hi & Hrows)
        & H1 & _ & H2);
    [assumption|].
  split; [|split; [exact H1 | exact H2]].
  exists volumes. split; [|exact Hrows].
  rewrite Ho. cbn [bind]. rewrite Hv. cbn [bind]. rewrite Hi. reflexivity.
Defined.

Lemma charts_agree_with_statistics_witness :
  bar_positions (charts sample_statistics)
  = seq 1 (volume_count sample_statistics)
  /\ list_sum (bar_heights (charts sample_statistics))
     = total_words (counted sample_statistics).
Proof.
  sample_run.
  destruct (charts_agree_with_statistics sample_manager sample_statistics)
    as (H1 & _ & H2 & _); [assumption|].
  split; [exact H1 | exact H2].
Defined.
